(** * tensor2tensor/trax/rlax/ppo_main.py: the PPO experiment driver

    A shallow embedding of the configuration and dispatch logic of the
    driver: [common_layers], [atari_layers], [make_env],
    [get_optimizer_fun] and [main] with its nested [run_training_loop].

    The driver is effectful Python: it reads the global [FLAGS] object,
    updates the JAX configuration, constructs environments, may raise, and
    finally calls the external trainer.  The embedding is a small
    reader/state/exception monad [M]: the flags are the read-only
    environment, the [World] holds the process-wide backend settings and a
    trace of the observable actions (flag reads, constructor calls, the
    trainer call), and an [Outcome] is a value or a raised exception. *)

From Stdlib Require Import ZArith NArith List String Ascii Bool Lia.
From Stdlib Require Import Floats.PrimFloat.
From Stdlib Require Decimal DecimalString DecimalZ.
Import DecimalString.
Import ListNotations.

Set Warnings "-inexact-float".
Open Scope string_scope.
Open Scope Z_scope.

(** ** Python values *)

(** A value that is a [str] or [None] (string flags default to [None]). *)
Definition optstr := option string.

(** Truthiness of a [str]-or-[None] value: [None] and [""] are falsy. *)
Definition truthy (v : optstr) : bool :=
  match v with
  | Some (String _ _) => true
  | _ => false
  end.

(** The exceptions that occur in the driver.  All of them are subclasses of
    Python's [Exception]; [ExternalError] stands for whatever an external
    collaborator raises. *)
Inductive Exn : Type :=
| AssertionError
| TypeError
| ValueError
| ExternalError (what : string).

Inductive Outcome (A : Type) : Type :=
| Ret (a : A)
| Raise (e : Exn).
Arguments Ret {A} a.
Arguments Raise {A} e.

(** *** [needle in haystack] on strings *)

Fixpoint str_contains (needle hay : string) : bool :=
  if String.prefix needle hay then true
  else match hay with
       | EmptyString => false
       | String _ hay' => str_contains needle hay'
       end.

(** *** [int(s)] on a string, base 10

    A Python [str] is a sequence of code points; a string here holds its
    UTF-8 encoding.  [int] accepts, in this order: whitespace, one optional
    sign, decimal digits in which single underscores may separate digits,
    and whitespace again.  Whitespace and digits are those of Unicode (14.0,
    as in CPython 3.11), except that among the ASCII characters only tab,
    line feed, vertical tab, form feed, carriage return and space count as
    whitespace.  More than [max_str_digits] digits are refused (the
    interpreter's default limit).  Everything else is a [ValueError], here
    [None]. *)

(** The code points of a UTF-8 byte sequence; [None] when it is not
    well-formed (a stray or missing continuation byte, an overlong form, a
    surrogate, a value above U+10FFFF). *)
Definition is_continuation (b : N) : bool :=
  ((128 <=? b) && (b <? 192))%N.

Fixpoint decode_utf8 (l : list ascii) : option (list N) :=
  match l with
  | [] => Some []
  | c1 :: l1 =>
      let b1 := N_of_ascii c1 in
      if (b1 <? 128)%N then option_map (cons b1) (decode_utf8 l1)
      else if (b1 <? 192)%N then None
      else if (b1 <? 224)%N then
        match l1 with
        | c2 :: l2 =>
            let b2 := N_of_ascii c2 in
            let cp := ((b1 - 192) * 64 + (b2 - 128))%N in
            if is_continuation b2 && (128 <=? cp)%N
            then option_map (cons cp) (decode_utf8 l2)
            else None
        | _ => None
        end
      else if (b1 <? 240)%N then
        match l1 with
        | c2 :: c3 :: l3 =>
            let b2 := N_of_ascii c2 in
            let b3 := N_of_ascii c3 in
            let cp := ((b1 - 224) * 4096 + (b2 - 128) * 64 + (b3 - 128))%N in
            if is_continuation b2 && is_continuation b3 && (2048 <=? cp)%N
               && negb ((55296 <=? cp) && (cp <? 57344))%N
            then option_map (cons cp) (decode_utf8 l3)
            else None
        | _ => None
        end
      else if (b1 <? 248)%N then
        match l1 with
        | c2 :: c3 :: c4 :: l4 =>
            let b2 := N_of_ascii c2 in
            let b3 := N_of_ascii c3 in
            let b4 := N_of_ascii c4 in
            let cp := ((b1 - 240) * 262144 + (b2 - 128) * 4096
                       + (b3 - 128) * 64 + (b4 - 128))%N in
            if is_continuation b2 && is_continuation b3 && is_continuation b4
               && (65536 <=? cp)%N && (cp <=? 1114111)%N
            then option_map (cons cp) (decode_utf8 l4)
            else None
        | _ => None
        end
      else None
  end.

(** The whitespace code points from U+007F on. *)
Definition unicode_spaces : list N :=
  [133; 160; 5760; 8192; 8193; 8194; 8195; 8196; 8197; 8198; 8199; 8200;
   8201; 8202; 8232; 8233; 8239; 8287; 12288]%N.

(** The code points of the digit zero of every script from U+007F on; the
    digits one to nine follow each of them. *)
Definition decimal_zeros : list N :=
  [1632; 1776; 1984; 2406; 2534; 2662; 2790; 2918; 3046; 3174; 3302; 3430;
   3558; 3664; 3792; 3872; 4160; 4240; 6112; 6160; 6470; 6608; 6784; 6800;
   6992; 7088; 7232; 7248; 42528; 43216; 43264; 43472; 43504; 43600; 44016;
   65296; 66720; 68912; 69734; 69872; 69942; 70096; 70384; 70736; 70864;
   71248; 71360; 71472; 71904; 72016; 72784; 73040; 73120; 92768; 92864;
   93008; 120782; 120792; 120802; 120812; 120822; 123200; 123632; 125264;
   130032]%N.

Definition decimal_of (cp : N) : option Z :=
  match find (fun z => (z <=? cp) && (cp <=? z + 9))%N decimal_zeros with
  | Some z => Some (Z.of_N (cp - z))
  | None => None
  end.

(** What a code point is to [int]. *)
Inductive CharClass : Type :=
| CSpace
| CPlus
| CMinus
| CUnderscore
| CDigit (d : Z)
| COther.

Definition classify (cp : N) : CharClass :=
  if (cp <? 127)%N then
    if (((9 <=? cp) && (cp <=? 13)) || (cp =? 32))%N then CSpace
    else if (cp =? 43)%N then CPlus
    else if (cp =? 45)%N then CMinus
    else if (cp =? 95)%N then CUnderscore
    else if ((48 <=? cp) && (cp <=? 57))%N then CDigit (Z.of_N (cp - 48))
    else COther
  else if existsb (N.eqb cp) unicode_spaces then CSpace
  else match decimal_of cp with
       | Some d => CDigit d
       | None => COther
       end.

Fixpoint skip_spaces (l : list CharClass) : list CharClass :=
  match l with
  | CSpace :: l' => skip_spaces l'
  | _ => l
  end.

(** [scan acc count after_underscore l] reads digits and underscores off
    [l]: the number read so far continuing [acc], the number of digits
    continuing [count], whether the last character read was an underscore,
    and what is left of [l].  Two underscores in a row are an error. *)
Fixpoint scan (acc : Z) (count : N) (after_underscore : bool)
    (l : list CharClass) : option (Z * N * bool * list CharClass) :=
  match l with
  | CDigit d :: l' => scan (10 * acc + d) (N.succ count) false l'
  | CUnderscore :: l' =>
      if after_underscore then None else scan acc count true l'
  | _ => Some (acc, count, after_underscore, l)
  end.

Definition max_str_digits : N := 4300.

Definition parse_int (l : list CharClass) : option Z :=
  let l1 := skip_spaces l in
  let '(sign, l2) :=
    match l1 with
    | CPlus :: r => (1, r)
    | CMinus :: r => (-1, r)
    | _ => (1, l1)
    end in
  match l2 with
  | CUnderscore :: _ => None
  | _ =>
      match scan 0 0 false l2 with
      | None => None
      | Some (acc, count, after_underscore, rest) =>
          if after_underscore then None
          else if (count =? 0)%N then None
          else if (max_str_digits <? count)%N then None
          else match skip_spaces rest with
               | [] => Some (sign * acc)
               | _ => None
               end
      end
  end.

Definition int_of_str (s : string) : option Z :=
  match decode_utf8 (list_ascii_of_string s) with
  | Some cps => parse_int (map classify cps)
  | None => None
  end.

(** ** Descriptors of the objects the driver builds

    The network layers, environments, optimizers and the trainer are external
    collaborators.  What the driver decides is which constructor is called
    with which arguments, so each object is represented by its constructor
    call. *)

Inductive Layer : Type :=
| Div (divisor : float)
| Flatten (num_axis_to_keep : Z)
| Dense (units : Z)
| Tanh
| AtariCnn.

Inductive DType : Type := int32.

(** [functools.partial(gym_utils.gym_env_wrapper, **{...})] *)
Record WrapperFn : Type := {
  rl_env_max_episode_steps : option Z;
  maxskip_env : bool;
  rendered_env : bool;
  rendered_env_resize_to : Z * Z;
  sticky_actions : bool;
  output_dtype : option DType
}.

Inductive EnvHandle : Type :=
| GymMake (id : optstr)
| EnvProblem (base_env_name : optstr) (batch_size : Z) (reward_range : Z * Z)
| RenderedEnvProblem (base_env_name : optstr) (batch_size : Z)
    (env_wrapper_fn : WrapperFn) (reward_range : Z * Z).

(** A reference to a function of this file that is passed uncalled. *)
Inductive FunRef : Type := common_layers_fn.

(** [functools.partial] applications of the three network constructors. *)
Inductive NetFun : Type :=
| policy_and_value_net (bottom_layers_fn : FunRef) (two_towers : bool)
| policy_net (bottom_layers : list Layer)
| value_net (bottom_layers : list Layer).

(** [functools.partial(ppo.optimizer_fun, step_size=...)] *)
Inductive OptimizerFun : Type :=
| optimizer_fun (step_size : float).

(** ** The flags, with their defaults *)

Module FLAGS.
Record t : Type := {
  env_name : optstr;
  env_problem_name : optstr;
  epochs : Z;
  random_seed : optstr;
  batch_size : Z;
  boundary : Z;
  max_timestep : option Z;
  truncation_timestep : option Z;
  jax_debug_nans : bool;
  disable_jit : bool;
  resize : bool;
  resized_height : Z;
  resized_width : Z;
  combined_network : bool;
  two_towers : bool;
  flatten_dims : bool;
  num_optimizer_steps : Z;
  policy_only_num_optimizer_steps : Z;
  value_only_num_optimizer_steps : Z;
  print_every_optimizer_steps : Z;
  learning_rate : float;
  policy_only_learning_rate : float;
  value_only_learning_rate : float;
  target_kl : float;
  value_coef : float;
  entropy_coef : float;
  gamma : float;
  lambda_ : float;
  epsilon : float;
  output_dir : string;
  use_tpu : bool;
  enable_early_stopping : bool;
  xm : bool;
  eval_every_n : Z;
  eval_batch_size : Z
}.

(** The values of the [flags.DEFINE_*] declarations. *)
Definition defaults : t := {|
  env_name := None;
  env_problem_name := None;
  epochs := 100;
  random_seed := None;
  batch_size := 32;
  boundary := 20;
  max_timestep := None;
  truncation_timestep := None;
  jax_debug_nans := false;
  disable_jit := false;
  resize := false;
  resized_height := 105;
  resized_width := 80;
  combined_network := false;
  two_towers := true;
  flatten_dims := false;
  num_optimizer_steps := 100;
  policy_only_num_optimizer_steps := 80;
  value_only_num_optimizer_steps := 80;
  print_every_optimizer_steps := 1;
  learning_rate := 1e-3;
  policy_only_learning_rate := 3e-4;
  value_only_learning_rate := 1e-3;
  target_kl := 0.01;
  value_coef := 1.0;
  entropy_coef := 0.01;
  gamma := 0.99;
  lambda_ := 0.95;
  epsilon := 0.1;
  output_dir := "";
  use_tpu := false;
  enable_early_stopping := true;
  xm := false;
  eval_every_n := 100;
  eval_batch_size := 4
|}.
End FLAGS.

(** ** The keyword arguments of [ppo.training_loop] *)

Module Kwargs.
Record t : Type := {
  env : EnvHandle;
  epochs : Z;
  policy_net_fun : option NetFun;
  value_net_fun : option NetFun;
  policy_and_value_net_fun : option NetFun;
  policy_optimizer_fun : option OptimizerFun;
  value_optimizer_fun : option OptimizerFun;
  policy_and_value_optimizer_fun : option OptimizerFun;
  num_optimizer_steps : Z;
  policy_only_num_optimizer_steps : Z;
  value_only_num_optimizer_steps : Z;
  print_every_optimizer_steps : Z;
  batch_size : Z;
  target_kl : float;
  boundary : Z;
  max_timestep : option Z;
  random_seed : option Z;
  c1 : float;
  c2 : float;
  gamma : float;
  lambda_ : float;
  epsilon : float;
  enable_early_stopping : bool;
  output_dir : string;
  eval_every_n : Z;
  eval_env : EnvHandle
}.
End Kwargs.

(** ** The world: backend settings and the trace of actions *)

Inductive Event : Type :=
| EvFlag (name : string)                 (* FLAGS.<name> is read *)
| EvConstruct (h : EnvHandle)            (* an environment constructor runs *)
| EvCopyRoms                             (* atari_utils.copy_roms() *)
| EvTrain (kw : Kwargs.t) (jit_off : bool).
                              (* ppo.training_loop is called with the keyword
                                 arguments kw; jit_off tells whether JIT
                                 compilation was disabled during the call *)

Record World : Type := {
  cfg_debug_nans : bool;            (* jax config "jax_debug_nans" *)
  cfg_platform_name : optstr;       (* jax config "jax_platform_name" *)
  jit_is_disabled : bool;           (* the mode jax.disable_jit() scopes *)
  atari_roms_path : optstr;         (* FLAGS.atari_roms_path *)
  trace : list Event                (* latest action first *)
}.

Definition emit (e : Event) (w : World) : World :=
  {| cfg_debug_nans := cfg_debug_nans w;
     cfg_platform_name := cfg_platform_name w;
     jit_is_disabled := jit_is_disabled w;
     atari_roms_path := atari_roms_path w;
     trace := e :: trace w |}.

Definition set_debug_nans (b : bool) (w : World) : World :=
  {| cfg_debug_nans := b;
     cfg_platform_name := cfg_platform_name w;
     jit_is_disabled := jit_is_disabled w;
     atari_roms_path := atari_roms_path w;
     trace := trace w |}.

Definition set_platform_name (p : optstr) (w : World) : World :=
  {| cfg_debug_nans := cfg_debug_nans w;
     cfg_platform_name := p;
     jit_is_disabled := jit_is_disabled w;
     atari_roms_path := atari_roms_path w;
     trace := trace w |}.

Definition set_jit_is_disabled (b : bool) (w : World) : World :=
  {| cfg_debug_nans := cfg_debug_nans w;
     cfg_platform_name := cfg_platform_name w;
     jit_is_disabled := b;
     atari_roms_path := atari_roms_path w;
     trace := trace w |}.

Definition set_atari_roms_path (p : optstr) (w : World) : World :=
  {| cfg_debug_nans := cfg_debug_nans w;
     cfg_platform_name := cfg_platform_name w;
     jit_is_disabled := jit_is_disabled w;
     atari_roms_path := p;
     trace := trace w |}.

(** A fresh process: nothing configured, JIT enabled, nothing done yet. *)
Definition fresh : World :=
  {| cfg_debug_nans := false;
     cfg_platform_name := None;
     jit_is_disabled := false;
     atari_roms_path := None;
     trace := [] |}.

(** [extend evs w]: the world [w] after the actions [evs] (given in the
    order they happen) have been recorded. *)
Definition extend (evs : list Event) (w : World) : World :=
  {| cfg_debug_nans := cfg_debug_nans w;
     cfg_platform_name := cfg_platform_name w;
     jit_is_disabled := jit_is_disabled w;
     atari_roms_path := atari_roms_path w;
     trace := (rev evs ++ trace w)%list |}.

(** The environments constructed so far, latest first. *)
Fixpoint constructed_in (evs : list Event) : list EnvHandle :=
  match evs with
  | [] => []
  | EvConstruct h :: evs' => h :: constructed_in evs'
  | _ :: evs' => constructed_in evs'
  end.

Definition constructed (w : World) : list EnvHandle :=
  constructed_in (trace w).

(** ** The monad *)

Definition M (A : Type) : Type := FLAGS.t -> World -> Outcome A * World.

Definition ret {A} (a : A) : M A := fun _ w => (Ret a, w).

Definition raise {A} (e : Exn) : M A := fun _ w => (Raise e, w).

Definition bind {A B} (c : M A) (k : A -> M B) : M B :=
  fun o w =>
    match c o w with
    | (Ret a, w') => k a o w'
    | (Raise e, w') => (Raise e, w')
    end.

Notation "x <- c ;; k" := (bind c (fun x => k))
  (at level 61, c at next level, right associativity).
Notation "c ;; k" := (bind c (fun _ => k))
  (at level 61, right associativity).

(** [FLAGS.<name>]: the value of the flag, with the read recorded. *)
Definition flag {A} (name : string) (proj : FLAGS.t -> A) : M A :=
  fun o w => (Ret (proj o), emit (EvFlag name) w).

Definition modify (f : World -> World) : M unit :=
  fun _ w => (Ret tt, f w).

(** [assert b] *)
Definition assert_ (b : bool) : M unit :=
  if b then ret tt else raise AssertionError.

(** [if b: c] *)
Definition when (b : bool) (c : M unit) : M unit :=
  if b then c else ret tt.

(** [try: body / except Exception: handler] *)
Definition try_except {A} (body : M A) (handler : Exn -> M A) : M A :=
  fun o w =>
    match body o w with
    | (Ret a, w') => (Ret a, w')
    | (Raise e, w') => handler e o w'
    end.

(** [needle in hay], where [hay] may be [None]: a [TypeError] then. *)
Definition py_in (needle : string) (hay : optstr) : M bool :=
  match hay with
  | Some h => ret (str_contains needle h)
  | None => raise TypeError
  end.

(** [int(v)], where [v] is a [str] or [None]. *)
Definition py_int (v : optstr) : M Z :=
  match v with
  | None => raise TypeError
  | Some s =>
      match int_of_str s with
      | Some n => ret n
      | None => raise ValueError
      end
  end.

(** Calling an environment constructor; the handle it returns is
    represented by the call.  The constructors are external: the call is
    recorded and taken to return.  What a constructor raises (an
    unregistered id, say) would be raised by [make_env] and by [main] in
    its place. *)
Definition construct (h : EnvHandle) : M EnvHandle :=
  fun _ w => (Ret h, emit (EvConstruct h) w).

(** Modelled from the spec: the environment classes are defined outside
    this file, and a constructed handle is an opaque reference there, so the
    truth test of [assert env] passes on every handle. *)
Definition env_truthy (h : EnvHandle) : bool := true.

(** [with jax.disable_jit(): body].  The context manager saves the mode,
    disables JIT, and restores the saved mode in its [finally]. *)
Definition with_disable_jit {A} (body : M A) : M A :=
  fun o w =>
    let prev := jit_is_disabled w in
    let '(r, w') := body o (set_jit_is_disabled true w) in
    (r, set_jit_is_disabled prev w').

(** ** The driver *)

Definition atari_layers : M (list Layer) :=
  ret [AtariCnn].

Definition common_layers : M (list Layer) :=
  name <- flag "env_problem_name" FLAGS.env_problem_name ;;
  pong <- py_in "Pong" name ;;
  if pong then atari_layers
  else
    fd <- flag "flatten_dims" FLAGS.flatten_dims ;;
    let cur_layers := if fd then [Div 255; Flatten 2] else [] in
    let body := [Dense 64; Tanh; Dense 64; Tanh] in
    ret (cur_layers ++ body)%list.

Definition make_env (batch_size : Z) : M EnvHandle :=
  name <- flag "env_name" FLAGS.env_name ;;
  if truthy name then
    id <- flag "env_name" FLAGS.env_name ;;
    construct (GymMake id)
  else
    problem <- flag "env_problem_name" FLAGS.env_problem_name ;;
    assert_ (truthy problem) ;;
    resize <- flag "resize" FLAGS.resize ;;
    if negb resize then
      base <- flag "env_problem_name" FLAGS.env_problem_name ;;
      construct (EnvProblem base batch_size (-1, 1))
    else
      steps <- flag "max_timestep" FLAGS.max_timestep ;;
      height <- flag "resized_height" FLAGS.resized_height ;;
      width <- flag "resized_width" FLAGS.resized_width ;;
      tpu <- flag "use_tpu" FLAGS.use_tpu ;;
      let wrapper_fn :=
        {| rl_env_max_episode_steps := steps;
           maxskip_env := true;
           rendered_env := true;
           rendered_env_resize_to := (height, width);
           sticky_actions := false;
           output_dtype := if tpu then Some int32 else None |} in
      base <- flag "env_problem_name" FLAGS.env_problem_name ;;
      construct (RenderedEnvProblem base batch_size wrapper_fn (-1, 1)).

Definition get_optimizer_fun (learning_rate : float) : OptimizerFun :=
  optimizer_fun learning_rate.

Section Driver.

(** [ppo.training_loop], the external trainer: given its keyword arguments
    and the backend settings it runs under, it returns or raises.  The
    driver neither catches nor interprets what it raises. *)
Variable training_loop : Kwargs.t -> World -> Outcome unit.

Definition call_training_loop (kw : Kwargs.t) : M unit :=
  fun _ w =>
    (training_loop kw w, emit (EvTrain kw (jit_is_disabled w)) w).

(** The body of the nested [run_training_loop] up to the trainer call: the
    keyword arguments the trainer is called with.  [env] and [eval_env] are
    the variables of [main] the closure captures. *)
Definition training_loop_kwargs (env eval_env : EnvHandle) : M Kwargs.t :=
  let policy_net_fun := None in
  let value_net_fun := None in
  let policy_and_value_net_fun := None in
  let policy_optimizer_fun := None in
  let value_optimizer_fun := None in
  let policy_and_value_optimizer_fun := None in
  combined <- flag "combined_network" FLAGS.combined_network ;;
  nets <-
    (if combined : bool then
       towers <- flag "two_towers" FLAGS.two_towers ;;
       let policy_and_value_net_fun :=
         Some (policy_and_value_net common_layers_fn towers) in
       lr <- flag "learning_rate" FLAGS.learning_rate ;;
       let policy_and_value_optimizer_fun := Some (get_optimizer_fun lr) in
       ret (policy_net_fun, value_net_fun, policy_and_value_net_fun,
            policy_optimizer_fun, value_optimizer_fun,
            policy_and_value_optimizer_fun)
     else
       bottom <- common_layers ;;
       let policy_net_fun := Some (policy_net bottom) in
       bottom <- common_layers ;;
       let value_net_fun := Some (value_net bottom) in
       lr <- flag "policy_only_learning_rate"
               FLAGS.policy_only_learning_rate ;;
       let policy_optimizer_fun := Some (get_optimizer_fun lr) in
       lr <- flag "value_only_learning_rate"
               FLAGS.value_only_learning_rate ;;
       let value_optimizer_fun := Some (get_optimizer_fun lr) in
       ret (policy_net_fun, value_net_fun, policy_and_value_net_fun,
            policy_optimizer_fun, value_optimizer_fun,
            policy_and_value_optimizer_fun)) ;;
  let '(policy_net_fun, value_net_fun, policy_and_value_net_fun,
        policy_optimizer_fun, value_optimizer_fun,
        policy_and_value_optimizer_fun) := nets in
  random_seed <-
    try_except
      (seed <- flag "random_seed" FLAGS.random_seed ;;
       n <- py_int seed ;;
       ret (Some n))
      (fun _ => ret None) ;;
  epochs <- flag "epochs" FLAGS.epochs ;;
  num_optimizer_steps <-
    flag "num_optimizer_steps" FLAGS.num_optimizer_steps ;;
  policy_only_num_optimizer_steps <-
    flag "policy_only_num_optimizer_steps"
      FLAGS.policy_only_num_optimizer_steps ;;
  value_only_num_optimizer_steps <-
    flag "value_only_num_optimizer_steps"
      FLAGS.value_only_num_optimizer_steps ;;
  print_every_optimizer_steps <-
    flag "print_every_optimizer_steps" FLAGS.print_every_optimizer_steps ;;
  batch_size <- flag "batch_size" FLAGS.batch_size ;;
  target_kl <- flag "target_kl" FLAGS.target_kl ;;
  boundary <- flag "boundary" FLAGS.boundary ;;
  max_timestep <- flag "truncation_timestep" FLAGS.truncation_timestep ;;
  c1 <- flag "value_coef" FLAGS.value_coef ;;
  c2 <- flag "entropy_coef" FLAGS.entropy_coef ;;
  gamma <- flag "gamma" FLAGS.gamma ;;
  lambda_ <- flag "lambda_" FLAGS.lambda_ ;;
  epsilon <- flag "epsilon" FLAGS.epsilon ;;
  enable_early_stopping <-
    flag "enable_early_stopping" FLAGS.enable_early_stopping ;;
  output_dir <- flag "output_dir" FLAGS.output_dir ;;
  eval_every_n <- flag "eval_every_n" FLAGS.eval_every_n ;;
  ret {| Kwargs.env := env;
         Kwargs.epochs := epochs;
         Kwargs.policy_net_fun := policy_net_fun;
         Kwargs.value_net_fun := value_net_fun;
         Kwargs.policy_and_value_net_fun := policy_and_value_net_fun;
         Kwargs.policy_optimizer_fun := policy_optimizer_fun;
         Kwargs.value_optimizer_fun := value_optimizer_fun;
         Kwargs.policy_and_value_optimizer_fun :=
           policy_and_value_optimizer_fun;
         Kwargs.num_optimizer_steps := num_optimizer_steps;
         Kwargs.policy_only_num_optimizer_steps :=
           policy_only_num_optimizer_steps;
         Kwargs.value_only_num_optimizer_steps :=
           value_only_num_optimizer_steps;
         Kwargs.print_every_optimizer_steps := print_every_optimizer_steps;
         Kwargs.batch_size := batch_size;
         Kwargs.target_kl := target_kl;
         Kwargs.boundary := boundary;
         Kwargs.max_timestep := max_timestep;
         Kwargs.random_seed := random_seed;
         Kwargs.c1 := c1;
         Kwargs.c2 := c2;
         Kwargs.gamma := gamma;
         Kwargs.lambda_ := lambda_;
         Kwargs.epsilon := epsilon;
         Kwargs.enable_early_stopping := enable_early_stopping;
         Kwargs.output_dir := output_dir;
         Kwargs.eval_every_n := eval_every_n;
         Kwargs.eval_env := eval_env |}.

Definition run_training_loop (env eval_env : EnvHandle) : M unit :=
  kw <- training_loop_kwargs env eval_env ;;
  call_training_loop kw.

(** [atari_utils.copy_roms()], reached only for a Pong run on the
    internal cluster.  The module is external ([tensor2tensor.rl.google]):
    its import and the copy are recorded and taken to return.  Where the
    module is missing, the import raises in their place. *)
Definition copy_roms : M unit :=
  modify (emit EvCopyRoms).

Definition main : M unit :=
  nans <- flag "jax_debug_nans" FLAGS.jax_debug_nans ;;
  when nans (modify (set_debug_nans true)) ;;
  tpu <- flag "use_tpu" FLAGS.use_tpu ;;
  when tpu (modify (set_platform_name (Some "tpu"))) ;;
  name <- flag "env_problem_name" FLAGS.env_problem_name ;;
  pong <- py_in "Pong" name ;;
  on_xm <- (if pong then flag "xm" FLAGS.xm else ret false) ;;
  when on_xm
    (modify (set_atari_roms_path (Some "local_ram_fs_tmp")) ;;
     copy_roms) ;;
  batch_size <- flag "batch_size" FLAGS.batch_size ;;
  env <- make_env batch_size ;;
  assert_ (env_truthy env) ;;
  batch_size <- flag "eval_batch_size" FLAGS.eval_batch_size ;;
  eval_env <- make_env batch_size ;;
  assert_ (env_truthy eval_env) ;;
  nans <- flag "jax_debug_nans" FLAGS.jax_debug_nans ;;
  off <- (if nans then ret true
          else flag "disable_jit" FLAGS.disable_jit) ;;
  if off then with_disable_jit (run_training_loop env eval_env)
  else run_training_loop env eval_env.

End Driver.

(** ** Option sets used in the examples *)

(** [--env_problem_name=CartPole-v1 --batch_size=4 --eval_batch_size=2] *)
Definition cartpole : FLAGS.t :=
  {| FLAGS.env_name := None;
     FLAGS.env_problem_name := Some "CartPole-v1";
     FLAGS.epochs := 100;
     FLAGS.random_seed := None;
     FLAGS.batch_size := 4;
     FLAGS.boundary := 20;
     FLAGS.max_timestep := None;
     FLAGS.truncation_timestep := None;
     FLAGS.jax_debug_nans := false;
     FLAGS.disable_jit := false;
     FLAGS.resize := false;
     FLAGS.resized_height := 105;
     FLAGS.resized_width := 80;
     FLAGS.combined_network := false;
     FLAGS.two_towers := true;
     FLAGS.flatten_dims := false;
     FLAGS.num_optimizer_steps := 100;
     FLAGS.policy_only_num_optimizer_steps := 80;
     FLAGS.value_only_num_optimizer_steps := 80;
     FLAGS.print_every_optimizer_steps := 1;
     FLAGS.learning_rate := 1e-3;
     FLAGS.policy_only_learning_rate := 3e-4;
     FLAGS.value_only_learning_rate := 1e-3;
     FLAGS.target_kl := 0.01;
     FLAGS.value_coef := 1.0;
     FLAGS.entropy_coef := 0.01;
     FLAGS.gamma := 0.99;
     FLAGS.lambda_ := 0.95;
     FLAGS.epsilon := 0.1;
     FLAGS.output_dir := "";
     FLAGS.use_tpu := false;
     FLAGS.enable_early_stopping := true;
     FLAGS.xm := false;
     FLAGS.eval_every_n := 100;
     FLAGS.eval_batch_size := 2 |}.

(** The environments [make_env] builds for it. *)
Definition cartpole_env (batch_size : Z) : EnvHandle :=
  EnvProblem (Some "CartPole-v1") batch_size (-1, 1).

(** Functional updates of single flags. *)
Definition with_names (env_name env_problem_name : optstr) (o : FLAGS.t)
  : FLAGS.t :=
  {| FLAGS.env_name := env_name;
     FLAGS.env_problem_name := env_problem_name;
     FLAGS.epochs := FLAGS.epochs o;
     FLAGS.random_seed := FLAGS.random_seed o;
     FLAGS.batch_size := FLAGS.batch_size o;
     FLAGS.boundary := FLAGS.boundary o;
     FLAGS.max_timestep := FLAGS.max_timestep o;
     FLAGS.truncation_timestep := FLAGS.truncation_timestep o;
     FLAGS.jax_debug_nans := FLAGS.jax_debug_nans o;
     FLAGS.disable_jit := FLAGS.disable_jit o;
     FLAGS.resize := FLAGS.resize o;
     FLAGS.resized_height := FLAGS.resized_height o;
     FLAGS.resized_width := FLAGS.resized_width o;
     FLAGS.combined_network := FLAGS.combined_network o;
     FLAGS.two_towers := FLAGS.two_towers o;
     FLAGS.flatten_dims := FLAGS.flatten_dims o;
     FLAGS.num_optimizer_steps := FLAGS.num_optimizer_steps o;
     FLAGS.policy_only_num_optimizer_steps :=
       FLAGS.policy_only_num_optimizer_steps o;
     FLAGS.value_only_num_optimizer_steps :=
       FLAGS.value_only_num_optimizer_steps o;
     FLAGS.print_every_optimizer_steps :=
       FLAGS.print_every_optimizer_steps o;
     FLAGS.learning_rate := FLAGS.learning_rate o;
     FLAGS.policy_only_learning_rate := FLAGS.policy_only_learning_rate o;
     FLAGS.value_only_learning_rate := FLAGS.value_only_learning_rate o;
     FLAGS.target_kl := FLAGS.target_kl o;
     FLAGS.value_coef := FLAGS.value_coef o;
     FLAGS.entropy_coef := FLAGS.entropy_coef o;
     FLAGS.gamma := FLAGS.gamma o;
     FLAGS.lambda_ := FLAGS.lambda_ o;
     FLAGS.epsilon := FLAGS.epsilon o;
     FLAGS.output_dir := FLAGS.output_dir o;
     FLAGS.use_tpu := FLAGS.use_tpu o;
     FLAGS.enable_early_stopping := FLAGS.enable_early_stopping o;
     FLAGS.xm := FLAGS.xm o;
     FLAGS.eval_every_n := FLAGS.eval_every_n o;
     FLAGS.eval_batch_size := FLAGS.eval_batch_size o |}.

Definition with_learning_rates (lr policy_lr value_lr : float) (o : FLAGS.t)
  : FLAGS.t :=
  {| FLAGS.env_name := FLAGS.env_name o;
     FLAGS.env_problem_name := FLAGS.env_problem_name o;
     FLAGS.epochs := FLAGS.epochs o;
     FLAGS.random_seed := FLAGS.random_seed o;
     FLAGS.batch_size := FLAGS.batch_size o;
     FLAGS.boundary := FLAGS.boundary o;
     FLAGS.max_timestep := FLAGS.max_timestep o;
     FLAGS.truncation_timestep := FLAGS.truncation_timestep o;
     FLAGS.jax_debug_nans := FLAGS.jax_debug_nans o;
     FLAGS.disable_jit := FLAGS.disable_jit o;
     FLAGS.resize := FLAGS.resize o;
     FLAGS.resized_height := FLAGS.resized_height o;
     FLAGS.resized_width := FLAGS.resized_width o;
     FLAGS.combined_network := FLAGS.combined_network o;
     FLAGS.two_towers := FLAGS.two_towers o;
     FLAGS.flatten_dims := FLAGS.flatten_dims o;
     FLAGS.num_optimizer_steps := FLAGS.num_optimizer_steps o;
     FLAGS.policy_only_num_optimizer_steps :=
       FLAGS.policy_only_num_optimizer_steps o;
     FLAGS.value_only_num_optimizer_steps :=
       FLAGS.value_only_num_optimizer_steps o;
     FLAGS.print_every_optimizer_steps :=
       FLAGS.print_every_optimizer_steps o;
     FLAGS.learning_rate := lr;
     FLAGS.policy_only_learning_rate := policy_lr;
     FLAGS.value_only_learning_rate := value_lr;
     FLAGS.target_kl := FLAGS.target_kl o;
     FLAGS.value_coef := FLAGS.value_coef o;
     FLAGS.entropy_coef := FLAGS.entropy_coef o;
     FLAGS.gamma := FLAGS.gamma o;
     FLAGS.lambda_ := FLAGS.lambda_ o;
     FLAGS.epsilon := FLAGS.epsilon o;
     FLAGS.output_dir := FLAGS.output_dir o;
     FLAGS.use_tpu := FLAGS.use_tpu o;
     FLAGS.enable_early_stopping := FLAGS.enable_early_stopping o;
     FLAGS.xm := FLAGS.xm o;
     FLAGS.eval_every_n := FLAGS.eval_every_n o;
     FLAGS.eval_batch_size := FLAGS.eval_batch_size o |}.

Definition with_random_seed (random_seed : optstr) (o : FLAGS.t)
  : FLAGS.t :=
  {| FLAGS.env_name := FLAGS.env_name o;
     FLAGS.env_problem_name := FLAGS.env_problem_name o;
     FLAGS.epochs := FLAGS.epochs o;
     FLAGS.random_seed := random_seed;
     FLAGS.batch_size := FLAGS.batch_size o;
     FLAGS.boundary := FLAGS.boundary o;
     FLAGS.max_timestep := FLAGS.max_timestep o;
     FLAGS.truncation_timestep := FLAGS.truncation_timestep o;
     FLAGS.jax_debug_nans := FLAGS.jax_debug_nans o;
     FLAGS.disable_jit := FLAGS.disable_jit o;
     FLAGS.resize := FLAGS.resize o;
     FLAGS.resized_height := FLAGS.resized_height o;
     FLAGS.resized_width := FLAGS.resized_width o;
     FLAGS.combined_network := FLAGS.combined_network o;
     FLAGS.two_towers := FLAGS.two_towers o;
     FLAGS.flatten_dims := FLAGS.flatten_dims o;
     FLAGS.num_optimizer_steps := FLAGS.num_optimizer_steps o;
     FLAGS.policy_only_num_optimizer_steps :=
       FLAGS.policy_only_num_optimizer_steps o;
     FLAGS.value_only_num_optimizer_steps :=
       FLAGS.value_only_num_optimizer_steps o;
     FLAGS.print_every_optimizer_steps := FLAGS.print_every_optimizer_steps o;
     FLAGS.learning_rate := FLAGS.learning_rate o;
     FLAGS.policy_only_learning_rate := FLAGS.policy_only_learning_rate o;
     FLAGS.value_only_learning_rate := FLAGS.value_only_learning_rate o;
     FLAGS.target_kl := FLAGS.target_kl o;
     FLAGS.value_coef := FLAGS.value_coef o;
     FLAGS.entropy_coef := FLAGS.entropy_coef o;
     FLAGS.gamma := FLAGS.gamma o;
     FLAGS.lambda_ := FLAGS.lambda_ o;
     FLAGS.epsilon := FLAGS.epsilon o;
     FLAGS.output_dir := FLAGS.output_dir o;
     FLAGS.use_tpu := FLAGS.use_tpu o;
     FLAGS.enable_early_stopping := FLAGS.enable_early_stopping o;
     FLAGS.xm := FLAGS.xm o;
     FLAGS.eval_every_n := FLAGS.eval_every_n o;
     FLAGS.eval_batch_size := FLAGS.eval_batch_size o |}.

Definition with_debug (jax_debug_nans : bool) (disable_jit : bool) (o : FLAGS.t)
  : FLAGS.t :=
  {| FLAGS.env_name := FLAGS.env_name o;
     FLAGS.env_problem_name := FLAGS.env_problem_name o;
     FLAGS.epochs := FLAGS.epochs o;
     FLAGS.random_seed := FLAGS.random_seed o;
     FLAGS.batch_size := FLAGS.batch_size o;
     FLAGS.boundary := FLAGS.boundary o;
     FLAGS.max_timestep := FLAGS.max_timestep o;
     FLAGS.truncation_timestep := FLAGS.truncation_timestep o;
     FLAGS.jax_debug_nans := jax_debug_nans;
     FLAGS.disable_jit := disable_jit;
     FLAGS.resize := FLAGS.resize o;
     FLAGS.resized_height := FLAGS.resized_height o;
     FLAGS.resized_width := FLAGS.resized_width o;
     FLAGS.combined_network := FLAGS.combined_network o;
     FLAGS.two_towers := FLAGS.two_towers o;
     FLAGS.flatten_dims := FLAGS.flatten_dims o;
     FLAGS.num_optimizer_steps := FLAGS.num_optimizer_steps o;
     FLAGS.policy_only_num_optimizer_steps :=
       FLAGS.policy_only_num_optimizer_steps o;
     FLAGS.value_only_num_optimizer_steps :=
       FLAGS.value_only_num_optimizer_steps o;
     FLAGS.print_every_optimizer_steps := FLAGS.print_every_optimizer_steps o;
     FLAGS.learning_rate := FLAGS.learning_rate o;
     FLAGS.policy_only_learning_rate := FLAGS.policy_only_learning_rate o;
     FLAGS.value_only_learning_rate := FLAGS.value_only_learning_rate o;
     FLAGS.target_kl := FLAGS.target_kl o;
     FLAGS.value_coef := FLAGS.value_coef o;
     FLAGS.entropy_coef := FLAGS.entropy_coef o;
     FLAGS.gamma := FLAGS.gamma o;
     FLAGS.lambda_ := FLAGS.lambda_ o;
     FLAGS.epsilon := FLAGS.epsilon o;
     FLAGS.output_dir := FLAGS.output_dir o;
     FLAGS.use_tpu := FLAGS.use_tpu o;
     FLAGS.enable_early_stopping := FLAGS.enable_early_stopping o;
     FLAGS.xm := FLAGS.xm o;
     FLAGS.eval_every_n := FLAGS.eval_every_n o;
     FLAGS.eval_batch_size := FLAGS.eval_batch_size o |}.

Definition with_combined_network (combined_network : bool) (o : FLAGS.t)
  : FLAGS.t :=
  {| FLAGS.env_name := FLAGS.env_name o;
     FLAGS.env_problem_name := FLAGS.env_problem_name o;
     FLAGS.epochs := FLAGS.epochs o;
     FLAGS.random_seed := FLAGS.random_seed o;
     FLAGS.batch_size := FLAGS.batch_size o;
     FLAGS.boundary := FLAGS.boundary o;
     FLAGS.max_timestep := FLAGS.max_timestep o;
     FLAGS.truncation_timestep := FLAGS.truncation_timestep o;
     FLAGS.jax_debug_nans := FLAGS.jax_debug_nans o;
     FLAGS.disable_jit := FLAGS.disable_jit o;
     FLAGS.resize := FLAGS.resize o;
     FLAGS.resized_height := FLAGS.resized_height o;
     FLAGS.resized_width := FLAGS.resized_width o;
     FLAGS.combined_network := combined_network;
     FLAGS.two_towers := FLAGS.two_towers o;
     FLAGS.flatten_dims := FLAGS.flatten_dims o;
     FLAGS.num_optimizer_steps := FLAGS.num_optimizer_steps o;
     FLAGS.policy_only_num_optimizer_steps :=
       FLAGS.policy_only_num_optimizer_steps o;
     FLAGS.value_only_num_optimizer_steps :=
       FLAGS.value_only_num_optimizer_steps o;
     FLAGS.print_every_optimizer_steps := FLAGS.print_every_optimizer_steps o;
     FLAGS.learning_rate := FLAGS.learning_rate o;
     FLAGS.policy_only_learning_rate := FLAGS.policy_only_learning_rate o;
     FLAGS.value_only_learning_rate := FLAGS.value_only_learning_rate o;
     FLAGS.target_kl := FLAGS.target_kl o;
     FLAGS.value_coef := FLAGS.value_coef o;
     FLAGS.entropy_coef := FLAGS.entropy_coef o;
     FLAGS.gamma := FLAGS.gamma o;
     FLAGS.lambda_ := FLAGS.lambda_ o;
     FLAGS.epsilon := FLAGS.epsilon o;
     FLAGS.output_dir := FLAGS.output_dir o;
     FLAGS.use_tpu := FLAGS.use_tpu o;
     FLAGS.enable_early_stopping := FLAGS.enable_early_stopping o;
     FLAGS.xm := FLAGS.xm o;
     FLAGS.eval_every_n := FLAGS.eval_every_n o;
     FLAGS.eval_batch_size := FLAGS.eval_batch_size o |}.

Definition with_resize (resize : bool) (use_tpu : bool) (o : FLAGS.t)
  : FLAGS.t :=
  {| FLAGS.env_name := FLAGS.env_name o;
     FLAGS.env_problem_name := FLAGS.env_problem_name o;
     FLAGS.epochs := FLAGS.epochs o;
     FLAGS.random_seed := FLAGS.random_seed o;
     FLAGS.batch_size := FLAGS.batch_size o;
     FLAGS.boundary := FLAGS.boundary o;
     FLAGS.max_timestep := FLAGS.max_timestep o;
     FLAGS.truncation_timestep := FLAGS.truncation_timestep o;
     FLAGS.jax_debug_nans := FLAGS.jax_debug_nans o;
     FLAGS.disable_jit := FLAGS.disable_jit o;
     FLAGS.resize := resize;
     FLAGS.resized_height := FLAGS.resized_height o;
     FLAGS.resized_width := FLAGS.resized_width o;
     FLAGS.combined_network := FLAGS.combined_network o;
     FLAGS.two_towers := FLAGS.two_towers o;
     FLAGS.flatten_dims := FLAGS.flatten_dims o;
     FLAGS.num_optimizer_steps := FLAGS.num_optimizer_steps o;
     FLAGS.policy_only_num_optimizer_steps :=
       FLAGS.policy_only_num_optimizer_steps o;
     FLAGS.value_only_num_optimizer_steps :=
       FLAGS.value_only_num_optimizer_steps o;
     FLAGS.print_every_optimizer_steps := FLAGS.print_every_optimizer_steps o;
     FLAGS.learning_rate := FLAGS.learning_rate o;
     FLAGS.policy_only_learning_rate := FLAGS.policy_only_learning_rate o;
     FLAGS.value_only_learning_rate := FLAGS.value_only_learning_rate o;
     FLAGS.target_kl := FLAGS.target_kl o;
     FLAGS.value_coef := FLAGS.value_coef o;
     FLAGS.entropy_coef := FLAGS.entropy_coef o;
     FLAGS.gamma := FLAGS.gamma o;
     FLAGS.lambda_ := FLAGS.lambda_ o;
     FLAGS.epsilon := FLAGS.epsilon o;
     FLAGS.output_dir := FLAGS.output_dir o;
     FLAGS.use_tpu := use_tpu;
     FLAGS.enable_early_stopping := FLAGS.enable_early_stopping o;
     FLAGS.xm := FLAGS.xm o;
     FLAGS.eval_every_n := FLAGS.eval_every_n o;
     FLAGS.eval_batch_size := FLAGS.eval_batch_size o |}.

Definition with_batch_sizes (batch_size : Z) (eval_batch_size : Z) (o : FLAGS.t)
  : FLAGS.t :=
  {| FLAGS.env_name := FLAGS.env_name o;
     FLAGS.env_problem_name := FLAGS.env_problem_name o;
     FLAGS.epochs := FLAGS.epochs o;
     FLAGS.random_seed := FLAGS.random_seed o;
     FLAGS.batch_size := batch_size;
     FLAGS.boundary := FLAGS.boundary o;
     FLAGS.max_timestep := FLAGS.max_timestep o;
     FLAGS.truncation_timestep := FLAGS.truncation_timestep o;
     FLAGS.jax_debug_nans := FLAGS.jax_debug_nans o;
     FLAGS.disable_jit := FLAGS.disable_jit o;
     FLAGS.resize := FLAGS.resize o;
     FLAGS.resized_height := FLAGS.resized_height o;
     FLAGS.resized_width := FLAGS.resized_width o;
     FLAGS.combined_network := FLAGS.combined_network o;
     FLAGS.two_towers := FLAGS.two_towers o;
     FLAGS.flatten_dims := FLAGS.flatten_dims o;
     FLAGS.num_optimizer_steps := FLAGS.num_optimizer_steps o;
     FLAGS.policy_only_num_optimizer_steps :=
       FLAGS.policy_only_num_optimizer_steps o;
     FLAGS.value_only_num_optimizer_steps :=
       FLAGS.value_only_num_optimizer_steps o;
     FLAGS.print_every_optimizer_steps := FLAGS.print_every_optimizer_steps o;
     FLAGS.learning_rate := FLAGS.learning_rate o;
     FLAGS.policy_only_learning_rate := FLAGS.policy_only_learning_rate o;
     FLAGS.value_only_learning_rate := FLAGS.value_only_learning_rate o;
     FLAGS.target_kl := FLAGS.target_kl o;
     FLAGS.value_coef := FLAGS.value_coef o;
     FLAGS.entropy_coef := FLAGS.entropy_coef o;
     FLAGS.gamma := FLAGS.gamma o;
     FLAGS.lambda_ := FLAGS.lambda_ o;
     FLAGS.epsilon := FLAGS.epsilon o;
     FLAGS.output_dir := FLAGS.output_dir o;
     FLAGS.use_tpu := FLAGS.use_tpu o;
     FLAGS.enable_early_stopping := FLAGS.enable_early_stopping o;
     FLAGS.xm := FLAGS.xm o;
     FLAGS.eval_every_n := FLAGS.eval_every_n o;
     FLAGS.eval_batch_size := eval_batch_size |}.

(** A trainer that returns, and one that raises. *)
Definition trainer_returns : Kwargs.t -> World -> Outcome unit :=
  fun _ _ => Ret tt.

Definition trainer_raises : Kwargs.t -> World -> Outcome unit :=
  fun _ _ => Raise (ExternalError "training_loop").

(** ** Notions the properties are stated with *)

Definition substring_of (needle hay : string) : Prop :=
  exists pre post, hay = pre ++ needle ++ post.

(** Python's [str(n)] for an integer: the decimal digits, with a minus sign
    for a negative number. *)
Definition py_str (n : Z) : string := NilZero.string_of_int (Z.to_int n).

(** *** The integer literals

    The strings that denote an integer, said independently of how [int]
    goes about reading them. *)

(** Digits after the first one: each may be preceded by one underscore. *)
Inductive more_digits : list CharClass -> list Z -> Prop :=
| more_done : more_digits [] []
| more_digit d t ds :
    more_digits t ds -> more_digits (CDigit d :: t) (d :: ds)
| more_underscore d t ds :
    more_digits t ds -> more_digits (CUnderscore :: CDigit d :: t) (d :: ds).

Definition decimal_value (ds : list Z) : Z :=
  fold_left (fun a d => 10 * a + d) ds 0.

Inductive sign_prefix : list CharClass -> Z -> Prop :=
| no_sign : sign_prefix [] 1
| plus_sign : sign_prefix [CPlus] 1
| minus_sign : sign_prefix [CMinus] (-1).

(** Whitespace, an optional sign, at least one and at most 4300 digits with
    single underscores between them, whitespace. *)
Definition literal (l : list CharClass) (n : Z) : Prop :=
  exists lead sgn sigma d t ds trail,
    l = (lead ++ sgn ++ CDigit d :: t ++ trail)%list /\
    Forall (eq CSpace) lead /\
    Forall (eq CSpace) trail /\
    sign_prefix sgn sigma /\
    more_digits t ds /\
    (N.of_nat (List.length (d :: ds)) <= 4300)%N /\
    n = sigma * decimal_value (d :: ds).

(** [integer_literal s n]: the string [s] parses as the integer [n]. *)
Definition integer_literal (s : string) (n : Z) : Prop :=
  exists cps,
    decode_utf8 (list_ascii_of_string s) = Some cps /\
    literal (map classify cps) n.

(** The number continuing [acc] with the decimal digits [ds]. *)
Definition continue (acc : Z) (ds : list Z) : Z :=
  fold_left (fun a d => 10 * a + d) ds acc.

(** The decimal digits of an unsigned decimal number. *)
Fixpoint uint_digits (u : Decimal.uint) : list Z :=
  match u with
  | Decimal.Nil => []
  | Decimal.D0 u => 0 :: uint_digits u
  | Decimal.D1 u => 1 :: uint_digits u
  | Decimal.D2 u => 2 :: uint_digits u
  | Decimal.D3 u => 3 :: uint_digits u
  | Decimal.D4 u => 4 :: uint_digits u
  | Decimal.D5 u => 5 :: uint_digits u
  | Decimal.D6 u => 6 :: uint_digits u
  | Decimal.D7 u => 7 :: uint_digits u
  | Decimal.D8 u => 8 :: uint_digits u
  | Decimal.D9 u => 9 :: uint_digits u
  end.

(** The body stack [common_layers] returns for a problem name. *)
Definition body_for (o : FLAGS.t) (name : string) : list Layer :=
  if str_contains "Pong" name then [AtariCnn]
  else ((if FLAGS.flatten_dims o then [Div 255; Flatten 2] else [])
        ++ [Dense 64; Tanh; Dense 64; Tanh])%list.

(** The flags [run_training_loop] reads before it calls the trainer, in
    order. *)
Definition common_layers_reads (o : FLAGS.t) (name : string) : list string :=
  "env_problem_name"
    :: (if str_contains "Pong" name then [] else ["flatten_dims"]).

Definition network_reads (o : FLAGS.t) (name : string) : list string :=
  if FLAGS.combined_network o then ["two_towers"; "learning_rate"]
  else (common_layers_reads o name ++ common_layers_reads o name
        ++ ["policy_only_learning_rate"; "value_only_learning_rate"])%list.

Definition kwargs_reads (o : FLAGS.t) (name : string) : list string :=
  ("combined_network" :: network_reads o name
   ++ ["random_seed"; "epochs"; "num_optimizer_steps";
       "policy_only_num_optimizer_steps"; "value_only_num_optimizer_steps";
       "print_every_optimizer_steps"; "batch_size"; "target_kl"; "boundary";
       "truncation_timestep"; "value_coef"; "entropy_coef"; "gamma";
       "lambda_"; "epsilon"; "enable_early_stopping"; "output_dir";
       "eval_every_n"])%list.

(** ** Valid option sets

    [main] reaches [run_training_loop] exactly for the option sets in which
    the problem name is a string (the "Pong" test needs one) and an
    environment can be named: through [env_name], or else through a
    non-empty problem name. *)
Definition valid (o : FLAGS.t) : bool :=
  match FLAGS.env_problem_name o with
  | Some name => truthy (FLAGS.env_name o) || truthy (Some name)
  | None => false
  end.

Definition populated {A} (x : option A) : Prop := x <> None.

Definition absent {A} (x : option A) : Prop := x = None.

(** The backend settings [main] touches: restored means that all of them
    are, after [main], what they were before. *)
Definition backend_restored (w w' : World) : Prop :=
  jit_is_disabled w' = jit_is_disabled w /\
  cfg_debug_nans w' = cfg_debug_nans w /\
  cfg_platform_name w' = cfg_platform_name w.

(** ** Frames

    Many properties of the driver say that a computation leaves some aspect
    of the world as it found it.  [maintains R o c] says that running [c]
    under the flags [o] relates every initial world to the final one by [R],
    whether [c] returns or raises.  For a reflexive and transitive [R] that
    ignores flag reads, the property is inherited through the combinators of
    the monad. *)

Class Frame (R : World -> World -> Prop) : Prop := {
  frame_refl : forall w, R w w;
  frame_trans : forall w1 w2 w3, R w1 w2 -> R w2 w3 -> R w1 w3;
  frame_flag : forall name w, R w (emit (EvFlag name) w)
}.

Definition maintains {A} (R : World -> World -> Prop) (o : FLAGS.t)
    (c : M A) : Prop :=
  forall w, R w (snd (c o w)).

(** The JIT mode is as it was. *)
Definition same_jit (w w' : World) : Prop :=
  jit_is_disabled w' = jit_is_disabled w.

(** No environment is constructed. *)
Definition same_constructed (w w' : World) : Prop :=
  constructed w' = constructed w.

(** Every environment constructed satisfies [P]. *)
Definition constructs_only (P : EnvHandle -> Prop) (w w' : World) : Prop :=
  forall h, In h (constructed w') -> In h (constructed w) \/ P h.

(** The JAX configuration is as it was. *)
Definition same_config (w w' : World) : Prop :=
  cfg_debug_nans w' = cfg_debug_nans w /\
  cfg_platform_name w' = cfg_platform_name w.

(** The ROM path is as it was, and no ROM copy has been made. *)
Definition same_roms (w w' : World) : Prop :=
  atari_roms_path w' = atari_roms_path w /\
  (In EvCopyRoms (trace w') -> In EvCopyRoms (trace w)).

(** ** The environment of an "env problem" *)

(** What [make_env] builds from the problem name: the rendered environment
    when [resize] is set, the plain one otherwise. *)
Definition problem_env (o : FLAGS.t) (batch_size : Z) : EnvHandle :=
  if FLAGS.resize o then
    RenderedEnvProblem (FLAGS.env_problem_name o) batch_size
      {| rl_env_max_episode_steps := FLAGS.max_timestep o;
         maxskip_env := true;
         rendered_env := true;
         rendered_env_resize_to :=
           (FLAGS.resized_height o, FLAGS.resized_width o);
         sticky_actions := false;
         output_dtype := if FLAGS.use_tpu o then Some int32 else None |}
      (-1, 1)
  else EnvProblem (FLAGS.env_problem_name o) batch_size (-1, 1).

(** ** The stages of [main] *)

(** The world after the start-up statements of [main] (the configuration
    updates and the ROM copy), when the problem name is the string [name]. *)
Definition after_setup (o : FLAGS.t) (name : string) (w : World) : World :=
  let w := emit (EvFlag "jax_debug_nans") w in
  let w := if FLAGS.jax_debug_nans o then set_debug_nans true w else w in
  let w := emit (EvFlag "use_tpu") w in
  let w :=
    if FLAGS.use_tpu o then set_platform_name (Some "tpu") w else w in
  let w := emit (EvFlag "env_problem_name") w in
  if str_contains "Pong" name then
    let w := emit (EvFlag "xm") w in
    if FLAGS.xm o
    then emit EvCopyRoms (set_atari_roms_path (Some "local_ram_fs_tmp") w)
    else w
  else w.

(** The two environments and what follows them. *)
Definition make_envs_then (rest : EnvHandle -> EnvHandle -> M unit)
  : M unit :=
  batch_size <- flag "batch_size" FLAGS.batch_size ;;
  env <- make_env batch_size ;;
  assert_ (env_truthy env) ;;
  batch_size <- flag "eval_batch_size" FLAGS.eval_batch_size ;;
  eval_env <- make_env batch_size ;;
  assert_ (env_truthy eval_env) ;;
  rest env eval_env.

(** The last statement of [main]: the training loop, inside
    [jax.disable_jit()] when one of the two debug flags is set. *)
Definition guarded_training training_loop (env eval_env : EnvHandle)
  : M unit :=
  nans <- flag "jax_debug_nans" FLAGS.jax_debug_nans ;;
  off <- (if nans then ret true
          else flag "disable_jit" FLAGS.disable_jit) ;;
  if off then with_disable_jit (run_training_loop training_loop env eval_env)
  else run_training_loop training_loop env eval_env.

(** * Properties *)

(** ** Substring test *)

Lemma prefix_true_iff (n h : string) :
  String.prefix n h = true <-> exists post, h = n ++ post.
Proof.
  revert h; induction n as [|c n IH]; intros h.
  - destruct h; simpl; (split; [intros _; eexists; reflexivity | reflexivity]).
  - destruct h as [|d h]; simpl.
    + split; [discriminate | intros [post H]; discriminate].
    + destruct (Ascii.ascii_dec c d) as [->|ne].
      * rewrite IH. split; intros [post H]; exists post.
        -- now rewrite H.
        -- now inversion H.
      * split; [discriminate | intros [post H]; inversion H; congruence].
Qed.

Lemma str_contains_iff (n h : string) :
  str_contains n h = true <-> substring_of n h.
Proof.
  unfold substring_of.
  induction h as [|d h IH]; cbn [str_contains].
  - destruct (String.prefix n "") eqn:E.
    + split; [intros _ | reflexivity].
      apply prefix_true_iff in E as [post E]. now exists "", post.
    + split; [discriminate | intros (pre & post & H)].
      destruct pre; [|discriminate]. simpl in H.
      assert (String.prefix n "" = true) by (apply prefix_true_iff; eauto).
      congruence.
  - destruct (String.prefix n (String d h)) eqn:E.
    + split; [intros _ | reflexivity].
      apply prefix_true_iff in E as [post E]. now exists "", post.
    + rewrite IH. split; intros (pre & post & H).
      * exists (String d pre), post. simpl. now rewrite H.
      * destruct pre as [|c pre].
        -- simpl in H.
           assert (String.prefix n (String d h) = true)
             by (apply prefix_true_iff; eauto).
           congruence.
        -- inversion H. eauto.
Qed.

Example pong_in_PongNoFrameskip :
  str_contains "Pong" "PongNoFrameskip-v4" = true.
Proof. reflexivity. Qed.

Example pong_in_CartPole : str_contains "Pong" "CartPole-v1" = false.
Proof. reflexivity. Qed.

Example pong_is_case_sensitive : str_contains "Pong" "pong-v0" = false.
Proof. reflexivity. Qed.

(** ** Reading an integer *)

Lemma skip_spaces_app (lead l : list CharClass) :
  Forall (eq CSpace) lead -> skip_spaces (lead ++ l) = skip_spaces l.
Proof.
  induction 1 as [|c lead E _ IH]; [reflexivity|].
  subst c. exact IH.
Qed.

Lemma skip_spaces_split (l : list CharClass) :
  exists lead, l = (lead ++ skip_spaces l)%list /\ Forall (eq CSpace) lead.
Proof.
  induction l as [|c l (lead & E & F)]; [exists []; split; [reflexivity|constructor]|].
  destruct c; try (exists []; split; [reflexivity|constructor]).
  exists (CSpace :: lead). cbn [skip_spaces app]. split.
  - f_equal. exact E.
  - constructor; [reflexivity | exact F].
Qed.

Lemma skip_spaces_nil (l : list CharClass) :
  skip_spaces l = [] <-> Forall (eq CSpace) l.
Proof.
  split.
  - intros E. destruct (skip_spaces_split l) as (lead & H & F).
    rewrite E, app_nil_r in H. subst lead. exact F.
  - intros F. rewrite <- (app_nil_r l). rewrite skip_spaces_app by exact F.
    reflexivity.
Qed.

(** [scan] reads the digits of a literal, and stops at the whitespace that
    follows them. *)
Lemma scan_more (t : list CharClass) (ds : list Z) (trail : list CharClass) :
  more_digits t ds ->
  Forall (eq CSpace) trail ->
  forall acc count,
    scan acc count false (t ++ trail) =
      Some (continue acc ds, (count + N.of_nat (List.length ds))%N, false,
            trail).
Proof.
  intros M F. induction M as [|d t ds M IH|d t ds M IH]; intros acc count.
  - cbn [app List.length continue fold_left N.of_nat].
    rewrite N.add_0_r. destruct F as [|c trail E F]; [reflexivity|].
    subst c. reflexivity.
  - cbn [app scan]. rewrite IH. cbn [continue fold_left List.length].
    replace (N.succ count + N.of_nat (List.length ds))%N
      with (count + N.of_nat (S (List.length ds)))%N by lia.
    reflexivity.
  - cbn [app scan]. rewrite IH. cbn [continue fold_left List.length].
    replace (N.succ count + N.of_nat (List.length ds))%N
      with (count + N.of_nat (S (List.length ds)))%N by lia.
    reflexivity.
Qed.

(** What [scan] has read, when it stops after a digit, is the digits of a
    literal. *)
Lemma scan_inv (l : list CharClass) :
  forall acc count acc' count' rest,
    (scan acc count false l = Some (acc', count', false, rest) ->
     exists t ds,
       l = (t ++ rest)%list /\ more_digits t ds /\
       acc' = continue acc ds /\
       count' = (count + N.of_nat (List.length ds))%N) /\
    (scan acc count true l = Some (acc', count', false, rest) ->
     exists d t ds,
       l = (CDigit d :: t ++ rest)%list /\ more_digits t ds /\
       acc' = continue acc (d :: ds) /\
       count' = (count + N.of_nat (List.length (d :: ds)))%N).
Proof.
  induction l as [|c l IH]; intros acc count acc' count' rest.
  - cbn [scan]. split; intros H; inversion H; subst.
    exists [], []. split; [reflexivity|]. split; [apply more_done|].
    split; [reflexivity|]. cbn [List.length]. lia.
  - destruct c; cbn [scan];
      try (split; intros H; inversion H; subst;
           exists [], []; split; [reflexivity|]; split; [apply more_done|];
           split; [reflexivity|]; cbn [List.length]; lia).
    + (* underscore *)
      split; [|discriminate].
      intros H. apply IH in H as (d & t & ds & E & M & A & C).
      exists (CUnderscore :: CDigit d :: t), (d :: ds). subst l.
      repeat split; [constructor; exact M | exact A | exact C].
    + (* digit *)
      split; intros H; apply IH in H as (t & ds & E & M & A & C).
      * exists (CDigit d :: t), (d :: ds). subst l.
        repeat split; [constructor; exact M | exact A |].
        cbn [List.length]. lia.
      * exists d, t, ds. subst l.
        repeat split; [exact M | exact A |].
        cbn [List.length]. lia.
Qed.

(** [parse_int] accepts exactly the literals, with their values. *)
Theorem parse_int_literal (l : list CharClass) (n : Z) :
  parse_int l = Some n <-> literal l n.
Proof.
  split.
  - unfold parse_int. intros H.
    destruct (skip_spaces_split l) as (lead & EL & FL).
    assert (S : exists sgn sigma l2,
               skip_spaces l = (sgn ++ l2)%list /\ sign_prefix sgn sigma /\
               match l2 with
               | CUnderscore :: _ => None
               | _ =>
                   match scan 0 0 false l2 with
                   | None => None
                   | Some (acc, count, after_underscore, rest) =>
                       if after_underscore then None
                       else if (count =? 0)%N then None
                       else if (max_str_digits <? count)%N then None
                       else match skip_spaces rest with
                            | [] => Some (sigma * acc)
                            | _ => None
                            end
                   end
               end = Some n).
    { destruct (skip_spaces l) as [|c r] eqn:E.
      - exists [], 1, []. repeat split; [constructor | exact H].
      - destruct c;
          try (exists [], 1; eexists; repeat split;
               [constructor | exact H]).
        + exists [CPlus], 1, r. repeat split; [constructor | exact H].
        + exists [CMinus], (-1), r. repeat split; [constructor | exact H]. }
    destruct S as (sgn & sigma & l2 & E2 & SP & P). clear H.
    assert (NU : forall r, l2 <> CUnderscore :: r).
    { intros r ->. discriminate P. }
    assert (P' : match scan 0 0 false l2 with
                 | None => None
                 | Some (acc, count, after_underscore, rest) =>
                     if after_underscore then None
                     else if (count =? 0)%N then None
                     else if (max_str_digits <? count)%N then None
                     else match skip_spaces rest with
                          | [] => Some (sigma * acc)
                          | _ => None
                          end
                 end = Some n).
    { destruct l2 as [|c r]; [exact P|]. destruct c; try exact P.
      discriminate P. }
    clear P.
    destruct (scan 0 0 false l2) as [[[[acc count] au] rest]|] eqn:SC;
      [|discriminate].
    destruct au; [discriminate|].
    destruct (count =? 0)%N eqn:C0; [discriminate|].
    destruct (max_str_digits <? count)%N eqn:CM; [discriminate|].
    destruct (skip_spaces rest) eqn:SR; [|discriminate].
    inversion P'; subst n. clear P'.
    apply (proj1 (scan_inv l2 0 0 acc count rest)) in SC
      as (t & ds & E & M & A & C).
    apply N.eqb_neq in C0. apply N.ltb_ge in CM. unfold max_str_digits in CM.
    destruct M as [|d t ds M|d t ds M].
    + cbn in C. lia.
    + exists lead, sgn, sigma, d, t, ds, rest.
      split; [rewrite EL at 1; rewrite E2, E; reflexivity|].
      split; [exact FL|].
      split; [apply skip_spaces_nil; exact SR|].
      split; [exact SP|]. split; [exact M|].
      split; [cbn [List.length] in C |- *; lia|].
      rewrite A. reflexivity.
    + exfalso. apply (NU (CDigit d :: t ++ rest)%list). rewrite E.
      reflexivity.
  - intros (lead & sgn & sigma & d & t & ds & trail & E & FL & FT & SP & M
            & B & V).
    subst l n. unfold parse_int.
    rewrite skip_spaces_app by exact FL.
    assert (SC : scan 0 0 false (CDigit d :: t ++ trail) =
                 Some (decimal_value (d :: ds),
                       N.of_nat (List.length (d :: ds)), false, trail)).
    { cbn [scan]. rewrite (scan_more t ds trail M FT).
      cbn [decimal_value continue fold_left List.length].
      replace (N.succ 0 + N.of_nat (List.length ds))%N
        with (N.of_nat (S (List.length ds))) by lia.
      reflexivity. }
    assert (C0 : (N.of_nat (List.length (d :: ds)) =? 0)%N = false).
    { apply N.eqb_neq. cbn [List.length]. lia. }
    assert (CM : (max_str_digits <? N.of_nat (List.length (d :: ds)))%N
                 = false).
    { apply N.ltb_ge. exact B. }
    assert (ST : skip_spaces trail = []) by (apply skip_spaces_nil; exact FT).
    destruct SP; cbn [app skip_spaces]; rewrite SC, C0, CM, ST; reflexivity.
Qed.

(** [int(s)] returns [n] exactly when [s] is an integer literal for [n]. *)
Theorem int_of_str_literal (s : string) (n : Z) :
  int_of_str s = Some n <-> integer_literal s n.
Proof.
  unfold int_of_str, integer_literal. split.
  - destruct (decode_utf8 (list_ascii_of_string s)) as [cps|];
      [|discriminate].
    intros H. exists cps. split; [reflexivity|].
    apply parse_int_literal. exact H.
  - intros (cps & -> & L). apply parse_int_literal. exact L.
Qed.

(** *** The decimal rendering of an integer is a literal for it *)

Lemma of_uint_acc_continue (u : Decimal.uint) (acc : positive) :
  Zpos (Pos.of_uint_acc u acc) = continue (Zpos acc) (uint_digits u).
Proof.
  revert acc. induction u; intros acc;
    cbn [Pos.of_uint_acc uint_digits continue fold_left];
    try reflexivity; rewrite IHu; unfold continue; f_equal; lia.
Qed.

Lemma of_uint_continue (u : Decimal.uint) :
  Z.of_uint u = continue 0 (uint_digits u).
Proof.
  unfold Z.of_uint.
  induction u; cbn [Pos.of_uint uint_digits continue fold_left];
    try reflexivity; try exact IHu;
    cbn [Z.of_N]; rewrite of_uint_acc_continue; reflexivity.
Qed.

Lemma more_digits_map (ds : list Z) : more_digits (map CDigit ds) ds.
Proof. induction ds; cbn [map]; constructor; assumption. Qed.

Lemma decode_uint (u : Decimal.uint) :
  exists cps,
    decode_utf8 (list_ascii_of_string (NilEmpty.string_of_uint u))
      = Some cps /\
    map classify cps = map CDigit (uint_digits u).
Proof.
  induction u as [|u (cps & E & C)|u (cps & E & C)|u (cps & E & C)
                  |u (cps & E & C)|u (cps & E & C)|u (cps & E & C)
                  |u (cps & E & C)|u (cps & E & C)|u (cps & E & C)
                  |u (cps & E & C)];
    [exists []; split; reflexivity|..];
    cbn [NilEmpty.string_of_uint list_ascii_of_string uint_digits];
    match goal with
    | |- context [decode_utf8 (?c :: _)] => exists (N_of_ascii c :: cps)
    end;
    (split; [cbn [decode_utf8]; rewrite E; reflexivity
            | cbn [map]; rewrite C; reflexivity]).
Qed.

Lemma uint_digits_length (u : Decimal.uint) :
  List.length (uint_digits u) = String.length (NilEmpty.string_of_uint u).
Proof.
  induction u; cbn [uint_digits NilEmpty.string_of_uint List.length
                    String.length]; congruence.
Qed.

(** The digits [NilZero.string_of_uint] prints: a lone zero for the empty
    number. *)
Lemma decode_uint_zero (u : Decimal.uint) :
  exists cps d ds,
    decode_utf8 (list_ascii_of_string (NilZero.string_of_uint u))
      = Some cps /\
    map classify cps = CDigit d :: map CDigit ds /\
    decimal_value (d :: ds) = Z.of_uint u /\
    List.length (d :: ds) = String.length (NilZero.string_of_uint u).
Proof.
  destruct (uint_digits u) as [|d ds] eqn:D.
  - assert (u = Decimal.Nil) by (destruct u; [reflexivity|discriminate..]).
    subst u. exists [48%N], 0, []. repeat split.
  - destruct (decode_uint u) as (cps & E & C).
    assert (S : NilZero.string_of_uint u = NilEmpty.string_of_uint u)
      by (destruct u; [discriminate D|reflexivity..]).
    exists cps, d, ds. rewrite S, E, C, D.
    split; [reflexivity|]. split; [reflexivity|]. split.
    + rewrite of_uint_continue, D. reflexivity.
    + rewrite <- D. apply uint_digits_length.
Qed.

Lemma integer_literal_decimal (i : Decimal.int) :
  (String.length (NilZero.string_of_int i) <= 4300)%nat ->
  integer_literal (NilZero.string_of_int i) (Z.of_int i).
Proof.
  destruct i as [u|u]; cbn [NilZero.string_of_int Z.of_int]; intros B;
    destruct (decode_uint_zero u) as (cps & d & ds & E & C & V & L).
  - exists cps. split; [exact E|]. rewrite C.
    exists [], [], 1, d, (map CDigit ds), ds, [].
    split; [cbn [app]; rewrite app_nil_r; reflexivity|].
    split; [constructor|]. split; [constructor|]. split; [constructor|].
    split; [apply more_digits_map|].
    split; [rewrite L; lia|].
    rewrite V. destruct (Z.of_uint u); reflexivity.
  - cbn [String.length] in B.
    exists (45%N :: cps). split.
    + cbn [list_ascii_of_string decode_utf8]. rewrite E. reflexivity.
    + cbn [map]. rewrite C.
      exists [], [CMinus], (-1), d, (map CDigit ds), ds, [].
      split; [cbn [app]; rewrite app_nil_r; reflexivity|].
      split; [constructor|]. split; [constructor|]. split; [constructor|].
      split; [apply more_digits_map|].
      split; [rewrite L; lia|].
      rewrite V. destruct (Z.of_uint u); reflexivity.
Qed.

(** [int(str(n)) == n], for a rendering within the digit limit. *)
Lemma int_of_str_py_str (n : Z) :
  (String.length (py_str n) <= 4300)%nat ->
  int_of_str (py_str n) = Some n.
Proof.
  intros B. apply int_of_str_literal. unfold py_str in *.
  rewrite <- (DecimalZ.of_to n) at 2.
  apply integer_literal_decimal. exact B.
Qed.

(** ** Running the monad symbolically *)

Ltac run :=
  cbv [bind ret raise flag construct assert_ when modify py_in py_int
       try_except atari_layers copy_roms emit extend rev app
       cfg_debug_nans cfg_platform_name jit_is_disabled atari_roms_path
       trace].

(** ** [common_layers] *)

Lemma common_layers_run (o : FLAGS.t) (w : World) (name : string) :
  FLAGS.env_problem_name o = Some name ->
  common_layers o w =
    if str_contains "Pong" name
    then (Ret [AtariCnn], extend [EvFlag "env_problem_name"] w)
    else (Ret ((if FLAGS.flatten_dims o then [Div 255; Flatten 2] else [])
               ++ [Dense 64; Tanh; Dense 64; Tanh])%list,
          extend [EvFlag "env_problem_name"; EvFlag "flatten_dims"] w).
Proof.
  intros H. unfold common_layers. run. rewrite H.
  destruct (str_contains "Pong" name); reflexivity.
Qed.

(** C7. When the problem name contains the token "Pong", [common_layers]
    returns the Atari convolutional stack; for every other problem name it
    returns [Div(255), Flatten(2)] exactly when [flatten_dims] is set (and
    nothing otherwise), followed by [Dense(64), Tanh, Dense(64), Tanh]. *)
Theorem common_layers_by_game_family
    (o : FLAGS.t) (w : World) (name : string) :
  FLAGS.env_problem_name o = Some name ->
  (substring_of "Pong" name ->
   fst (common_layers o w) = fst (atari_layers o w) /\
   fst (common_layers o w) = Ret [AtariCnn]) /\
  (~ substring_of "Pong" name ->
   fst (common_layers o w) =
     Ret ((if FLAGS.flatten_dims o then [Div 255; Flatten 2] else [])
          ++ [Dense 64; Tanh; Dense 64; Tanh])%list).
Proof.
  intros H. rewrite (common_layers_run o w name H).
  destruct (str_contains "Pong" name) eqn:E.
  - split; [intros _; split; reflexivity|].
    intros N. apply str_contains_iff in E. contradiction.
  - split; [|intros _; reflexivity].
    intros P. apply str_contains_iff in P. congruence.
Qed.

Lemma common_layers_by_game_family_witness :
  fst (common_layers cartpole fresh) = Ret [Dense 64; Tanh; Dense 64; Tanh].
Proof.
  refine (proj2 (common_layers_by_game_family cartpole fresh "CartPole-v1"
                   eq_refl) _).
  intros P. apply str_contains_iff in P. discriminate P.
Defined.

(** ** [make_env] *)

Lemma make_env_gym_run (o : FLAGS.t) (batch_size : Z) (w : World) :
  truthy (FLAGS.env_name o) = true ->
  make_env batch_size o w =
    (Ret (GymMake (FLAGS.env_name o)),
     extend [EvFlag "env_name"; EvFlag "env_name";
             EvConstruct (GymMake (FLAGS.env_name o))] w).
Proof.
  intros H. unfold make_env. run. rewrite H. reflexivity.
Qed.

Lemma make_env_assert_run (o : FLAGS.t) (batch_size : Z) (w : World) :
  truthy (FLAGS.env_name o) = false ->
  truthy (FLAGS.env_problem_name o) = false ->
  make_env batch_size o w =
    (Raise AssertionError,
     extend [EvFlag "env_name"; EvFlag "env_problem_name"] w).
Proof.
  intros H1 H2. unfold make_env. run. rewrite H1, H2. reflexivity.
Qed.

Lemma make_env_plain_run (o : FLAGS.t) (batch_size : Z) (w : World) :
  truthy (FLAGS.env_name o) = false ->
  truthy (FLAGS.env_problem_name o) = true ->
  FLAGS.resize o = false ->
  make_env batch_size o w =
    (Ret (EnvProblem (FLAGS.env_problem_name o) batch_size (-1, 1)),
     extend [EvFlag "env_name"; EvFlag "env_problem_name"; EvFlag "resize";
             EvFlag "env_problem_name";
             EvConstruct
               (EnvProblem (FLAGS.env_problem_name o) batch_size (-1, 1))]
       w).
Proof.
  intros H1 H2 H3. unfold make_env. run. rewrite H1, H2, H3. reflexivity.
Qed.

Lemma make_env_rendered_run (o : FLAGS.t) (batch_size : Z) (w : World) :
  truthy (FLAGS.env_name o) = false ->
  truthy (FLAGS.env_problem_name o) = true ->
  FLAGS.resize o = true ->
  let wrapper_fn :=
    {| rl_env_max_episode_steps := FLAGS.max_timestep o;
       maxskip_env := true;
       rendered_env := true;
       rendered_env_resize_to :=
         (FLAGS.resized_height o, FLAGS.resized_width o);
       sticky_actions := false;
       output_dtype := if FLAGS.use_tpu o then Some int32 else None |} in
  let handle :=
    RenderedEnvProblem (FLAGS.env_problem_name o) batch_size wrapper_fn
      (-1, 1) in
  make_env batch_size o w =
    (Ret handle,
     extend [EvFlag "env_name"; EvFlag "env_problem_name"; EvFlag "resize";
             EvFlag "max_timestep"; EvFlag "resized_height";
             EvFlag "resized_width"; EvFlag "use_tpu";
             EvFlag "env_problem_name"; EvConstruct handle] w).
Proof.
  intros H1 H2 H3. unfold make_env. run. rewrite H1, H2, H3. reflexivity.
Qed.

(** ** Frame rules *)

Create HintDb frame.

Section FrameRules.

Context (R : World -> World -> Prop) `{FR : Frame R} (o : FLAGS.t).

Lemma maintains_ret {A} (a : A) : maintains R o (ret a).
Proof. intros w. apply frame_refl. Qed.

Lemma maintains_raise {A} (e : Exn) : maintains R o (@raise A e).
Proof. intros w. apply frame_refl. Qed.

Lemma maintains_bind {A B} (c : M A) (k : A -> M B) :
  maintains R o c ->
  (forall a, maintains R o (k a)) ->
  maintains R o (bind c k).
Proof.
  intros Hc Hk w. unfold bind.
  specialize (Hc w). destruct (c o w) as [[a|e] w1]; simpl in *.
  - eapply frame_trans; [exact Hc | apply Hk].
  - exact Hc.
Qed.

Lemma maintains_flag {A} (name : string) (proj : FLAGS.t -> A) :
  maintains R o (flag name proj).
Proof. intros w. apply frame_flag. Qed.

(** The continuation of a flag read only has to be considered at the
    value the flag has. *)
Lemma maintains_flag_bind {A B} (name : string) (proj : FLAGS.t -> A)
    (k : A -> M B) :
  maintains R o (k (proj o)) ->
  maintains R o (bind (flag name proj) k).
Proof.
  intros Hk w. unfold bind, flag.
  eapply frame_trans; [apply frame_flag | apply Hk].
Qed.

Lemma maintains_try_except {A} (body : M A) (handler : Exn -> M A) :
  maintains R o body ->
  (forall e, maintains R o (handler e)) ->
  maintains R o (try_except body handler).
Proof.
  intros Hb Hh w. unfold try_except.
  specialize (Hb w). destruct (body o w) as [[a|e] w1]; simpl in *.
  - exact Hb.
  - eapply frame_trans; [exact Hb | apply Hh].
Qed.

Lemma maintains_assert (b : bool) : maintains R o (assert_ b).
Proof. destruct b; intros w; apply frame_refl. Qed.

Lemma maintains_when (b : bool) (c : M unit) :
  (b = true -> maintains R o c) -> maintains R o (when b c).
Proof.
  destruct b; intros Hc; [apply Hc; reflexivity | apply maintains_ret].
Qed.

Lemma maintains_py_in (needle : string) (hay : optstr) :
  maintains R o (py_in needle hay).
Proof. destruct hay; intros w; apply frame_refl. Qed.

Lemma maintains_py_int (v : optstr) : maintains R o (py_int v).
Proof.
  destruct v as [s|]; simpl; [destruct (int_of_str s)|];
    intros w; apply frame_refl.
Qed.

Lemma maintains_modify (f : World -> World) :
  (forall w, R w (f w)) -> maintains R o (modify f).
Proof. intros Hf w. apply Hf. Qed.

End FrameRules.

Ltac frame_rule L :=
  apply L; match goal with |- Frame _ => exact _ | _ => idtac end.

Ltac frame_step :=
  cbv beta;
  match goal with
  | |- maintains _ _ (ret _) => frame_rule @maintains_ret
  | |- maintains _ _ (raise _) => frame_rule @maintains_raise
  | |- maintains _ _ (bind (flag _ _) _) => frame_rule @maintains_flag_bind
  | |- maintains _ _ (flag _ _) => frame_rule @maintains_flag
  | |- maintains _ _ (bind _ _) => frame_rule @maintains_bind; [|intros ?]
  | |- maintains _ _ (try_except _ _) =>
      frame_rule @maintains_try_except; [|intros ?]
  | |- maintains _ _ (assert_ _) => frame_rule @maintains_assert
  | |- maintains _ _ (py_in _ _) => frame_rule @maintains_py_in
  | |- maintains _ _ (py_int _) => frame_rule @maintains_py_int
  | |- maintains _ _ (when _ _) => frame_rule @maintains_when; intros ?
  | |- maintains _ _ atari_layers => frame_rule @maintains_ret
  | |- maintains _ _ (if ?b then _ else _) =>
      let E := fresh "E" in destruct b eqn:E
  | |- maintains _ _ (match ?p with _ => _ end) => destruct p
  | |- maintains _ _ _ => solve [eauto with frame]
  end.

Ltac frame := repeat frame_step.

Section FrameDriver.

Context (R : World -> World -> Prop) `{FR : Frame R} (o : FLAGS.t).

Lemma maintains_common_layers : maintains R o common_layers.
Proof. unfold common_layers. frame. Qed.

Lemma maintains_training_loop_kwargs (env eval_env : EnvHandle) :
  maintains R o (training_loop_kwargs env eval_env).
Proof.
  pose proof maintains_common_layers as CL.
  unfold training_loop_kwargs. frame; exact CL.
Qed.

(** [make_env] adds to flag reads at most one constructor call, and
    [run_training_loop] exactly the trainer call. *)
Lemma maintains_make_env (batch_size : Z) :
  (forall h w, R w (emit (EvConstruct h) w)) ->
  maintains R o (make_env batch_size).
Proof.
  intros HC. unfold make_env. frame; intros w; apply HC.
Qed.

Lemma maintains_run_training_loop training_loop (env eval_env : EnvHandle) :
  (forall kw w, R w (emit (EvTrain kw (jit_is_disabled w)) w)) ->
  maintains R o (run_training_loop training_loop env eval_env).
Proof.
  intros HT. unfold run_training_loop.
  frame_rule @maintains_bind; [apply maintains_training_loop_kwargs|].
  intros kw w. apply HT.
Qed.

End FrameDriver.

(** ** The keyword arguments the trainer is called with *)

(** Whenever the problem name is a string, [run_training_loop] gets as far
    as the trainer call, having done nothing but read flags. *)
Lemma training_loop_kwargs_run
    (o : FLAGS.t) (env eval_env : EnvHandle) (w : World) (name : string) :
  FLAGS.env_problem_name o = Some name ->
  exists kw,
    training_loop_kwargs env eval_env o w =
      (Ret kw, extend (map EvFlag (kwargs_reads o name)) w) /\
    Kwargs.env kw = env /\
    Kwargs.eval_env kw = eval_env /\
    (forall s n, FLAGS.random_seed o = Some s -> int_of_str s = Some n ->
                 Kwargs.random_seed kw = Some n) /\
    (forall s, FLAGS.random_seed o = Some s -> int_of_str s = None ->
               Kwargs.random_seed kw = None) /\
    (FLAGS.random_seed o = None -> Kwargs.random_seed kw = None) /\
    (FLAGS.combined_network o = true ->
       Kwargs.policy_and_value_net_fun kw =
         Some (policy_and_value_net common_layers_fn (FLAGS.two_towers o)) /\
       Kwargs.policy_and_value_optimizer_fun kw =
         Some (optimizer_fun (FLAGS.learning_rate o)) /\
       Kwargs.policy_net_fun kw = None /\
       Kwargs.value_net_fun kw = None /\
       Kwargs.policy_optimizer_fun kw = None /\
       Kwargs.value_optimizer_fun kw = None) /\
    (FLAGS.combined_network o = false ->
       Kwargs.policy_net_fun kw = Some (policy_net (body_for o name)) /\
       Kwargs.value_net_fun kw = Some (value_net (body_for o name)) /\
       Kwargs.policy_optimizer_fun kw =
         Some (optimizer_fun (FLAGS.policy_only_learning_rate o)) /\
       Kwargs.value_optimizer_fun kw =
         Some (optimizer_fun (FLAGS.value_only_learning_rate o)) /\
       Kwargs.policy_and_value_net_fun kw = None /\
       Kwargs.policy_and_value_optimizer_fun kw = None).
Proof.
  intros P.
  unfold training_loop_kwargs, common_layers, get_optimizer_fun,
    kwargs_reads, network_reads, common_layers_reads, body_for.
  run.
  destruct (FLAGS.combined_network o); run; rewrite ?P; run;
    try (destruct (str_contains "Pong" name); run);
    try (destruct (FLAGS.flatten_dims o); run);
    destruct (FLAGS.random_seed o) as [s|]; run;
    try (destruct (int_of_str s) as [n|] eqn:I; run).
  all: eexists; split; [reflexivity|].
  all: cbn.
  all: repeat split; intros; try congruence.
Qed.

Lemma valid_problem_name (o : FLAGS.t) :
  valid o = true -> exists name, FLAGS.env_problem_name o = Some name.
Proof.
  unfold valid. destruct (FLAGS.env_problem_name o) as [name|];
    [eauto | discriminate].
Qed.

Lemma run_training_loop_run training_loop
    (o : FLAGS.t) (env eval_env : EnvHandle) (w w' : World) (kw : Kwargs.t) :
  training_loop_kwargs env eval_env o w = (Ret kw, w') ->
  run_training_loop training_loop env eval_env o w =
    (training_loop kw w', emit (EvTrain kw (jit_is_disabled w')) w').
Proof.
  intros H. unfold run_training_loop, bind. rewrite H. reflexivity.
Qed.

Lemma not_In_existsb (x : string) (l : list string) :
  existsb (String.eqb x) l = false -> ~ In x l.
Proof.
  intros E H.
  assert (existsb (String.eqb x) l = true)
    by (apply existsb_exists; exists x; split; [exact H|apply String.eqb_refl]).
  congruence.
Qed.

(** C1. For every valid option set, [run_training_loop] calls the trainer
    with exactly one shape of network bundle: with [combined_network] set,
    the combined network and its optimizer are populated and the four
    separate-mode fields are [None]; with [combined_network] unset, the four
    separate-mode fields are populated and the two combined-mode fields are
    [None]. *)
Theorem run_training_loop_bundle_shape
    (training_loop : Kwargs.t -> World -> Outcome unit)
    (o : FLAGS.t) (env eval_env : EnvHandle) (w : World) :
  valid o = true ->
  exists kw w',
    training_loop_kwargs env eval_env o w = (Ret kw, w') /\
    run_training_loop training_loop env eval_env o w =
      (training_loop kw w', emit (EvTrain kw (jit_is_disabled w')) w') /\
    (FLAGS.combined_network o = true ->
       populated (Kwargs.policy_and_value_net_fun kw) /\
       populated (Kwargs.policy_and_value_optimizer_fun kw) /\
       absent (Kwargs.policy_net_fun kw) /\
       absent (Kwargs.value_net_fun kw) /\
       absent (Kwargs.policy_optimizer_fun kw) /\
       absent (Kwargs.value_optimizer_fun kw)) /\
    (FLAGS.combined_network o = false ->
       populated (Kwargs.policy_net_fun kw) /\
       populated (Kwargs.value_net_fun kw) /\
       populated (Kwargs.policy_optimizer_fun kw) /\
       populated (Kwargs.value_optimizer_fun kw) /\
       absent (Kwargs.policy_and_value_net_fun kw) /\
       absent (Kwargs.policy_and_value_optimizer_fun kw)).
Proof.
  intros V. destruct (valid_problem_name o V) as [name P].
  destruct (training_loop_kwargs_run o env eval_env w name P)
    as (kw & E & _ & _ & _ & _ & _ & HC & HS).
  exists kw. eexists. split; [exact E|].
  split; [apply run_training_loop_run; exact E|].
  unfold populated, absent. split; intros C.
  - destruct (HC C) as (-> & -> & -> & -> & -> & ->).
    repeat split; congruence.
  - destruct (HS C) as (-> & -> & -> & -> & -> & ->).
    repeat split; congruence.
Qed.

Lemma run_training_loop_bundle_shape_witness :
  valid cartpole = true /\
  exists kw w',
    training_loop_kwargs (cartpole_env 4) (cartpole_env 2) cartpole fresh
      = (Ret kw, w') /\
    populated (Kwargs.policy_net_fun kw) /\
    absent (Kwargs.policy_and_value_net_fun kw).
Proof.
  split; [reflexivity|].
  destruct (run_training_loop_bundle_shape trainer_returns cartpole
              (cartpole_env 4) (cartpole_env 2) fresh eq_refl)
    as (kw & w' & E & _ & _ & HS).
  exists kw, w'. split; [exact E|].
  destruct (HS eq_refl) as (H1 & _ & _ & _ & H2 & _). split; assumption.
Defined.

(** C3. For every valid option set one learning-rate binding path is taken.
    In combined mode the single optimizer factory is bound to
    [learning_rate], and neither of the other two rates is read; in separate
    mode the policy factory is bound to [policy_only_learning_rate] and the
    value factory to [value_only_learning_rate], and [learning_rate] is not
    read.  A run that differs only in [policy_only_learning_rate] passes the
    same value optimizer factory, and a run that differs only in
    [value_only_learning_rate] the same policy optimizer factory. *)
Theorem learning_rate_binding
    (o : FLAGS.t) (env eval_env : EnvHandle) (w : World) :
  valid o = true ->
  exists kw names,
    training_loop_kwargs env eval_env o w =
      (Ret kw, extend (map EvFlag names) w) /\
    (FLAGS.combined_network o = true ->
       Kwargs.policy_and_value_optimizer_fun kw =
         Some (get_optimizer_fun (FLAGS.learning_rate o)) /\
       Kwargs.policy_optimizer_fun kw = None /\
       Kwargs.value_optimizer_fun kw = None /\
       In "learning_rate" names /\
       ~ In "policy_only_learning_rate" names /\
       ~ In "value_only_learning_rate" names) /\
    (FLAGS.combined_network o = false ->
       Kwargs.policy_optimizer_fun kw =
         Some (get_optimizer_fun (FLAGS.policy_only_learning_rate o)) /\
       Kwargs.value_optimizer_fun kw =
         Some (get_optimizer_fun (FLAGS.value_only_learning_rate o)) /\
       Kwargs.policy_and_value_optimizer_fun kw = None /\
       ~ In "learning_rate" names /\
       In "policy_only_learning_rate" names /\
       In "value_only_learning_rate" names) /\
    (forall r : float,
       let o' := with_learning_rates (FLAGS.learning_rate o) r
                   (FLAGS.value_only_learning_rate o) o in
       exists kw' w',
         training_loop_kwargs env eval_env o' w = (Ret kw', w') /\
         Kwargs.value_optimizer_fun kw' = Kwargs.value_optimizer_fun kw) /\
    (forall r : float,
       let o' := with_learning_rates (FLAGS.learning_rate o)
                   (FLAGS.policy_only_learning_rate o) r o in
       exists kw' w',
         training_loop_kwargs env eval_env o' w = (Ret kw', w') /\
         Kwargs.policy_optimizer_fun kw' = Kwargs.policy_optimizer_fun kw).
Proof.
  intros V. destruct (valid_problem_name o V) as [name P].
  destruct (training_loop_kwargs_run o env eval_env w name P)
    as (kw & E & _ & _ & _ & _ & _ & HC & HS).
  exists kw, (kwargs_reads o name). split; [exact E|].
  unfold get_optimizer_fun.
  split; [|split; [|split]].
  - intros C. destruct (HC C) as (_ & -> & _ & _ & -> & ->).
    unfold kwargs_reads, network_reads. rewrite C.
    repeat split; try (apply not_In_existsb; reflexivity).
    cbn. tauto.
  - intros C. destruct (HS C) as (_ & _ & -> & -> & _ & ->).
    unfold kwargs_reads, network_reads, common_layers_reads. rewrite C.
    destruct (str_contains "Pong" name);
      (repeat split; try (apply not_In_existsb; reflexivity));
      cbn; tauto.
  - intros r. set (o' := with_learning_rates _ _ _ o).
    destruct (training_loop_kwargs_run o' env eval_env w name P)
      as (kw' & E' & _ & _ & _ & _ & _ & HC' & HS').
    exists kw'. eexists. split; [exact E'|].
    destruct (FLAGS.combined_network o) eqn:C.
    + destruct (HC eq_refl) as (_ & _ & _ & _ & _ & ->).
      destruct (HC' C) as (_ & _ & _ & _ & _ & ->). reflexivity.
    + destruct (HS eq_refl) as (_ & _ & _ & -> & _ & _).
      destruct (HS' C) as (_ & _ & _ & -> & _ & _). reflexivity.
  - intros r. set (o' := with_learning_rates _ _ _ o).
    destruct (training_loop_kwargs_run o' env eval_env w name P)
      as (kw' & E' & _ & _ & _ & _ & _ & HC' & HS').
    exists kw'. eexists. split; [exact E'|].
    destruct (FLAGS.combined_network o) eqn:C.
    + destruct (HC eq_refl) as (_ & _ & _ & _ & -> & _).
      destruct (HC' C) as (_ & _ & _ & _ & -> & _). reflexivity.
    + destruct (HS eq_refl) as (_ & _ & -> & _ & _ & _).
      destruct (HS' C) as (_ & _ & -> & _ & _ & _). reflexivity.
Qed.

Lemma learning_rate_binding_witness :
  valid cartpole = true /\
  exists kw w',
    training_loop_kwargs (cartpole_env 4) (cartpole_env 2) cartpole fresh
      = (Ret kw, w') /\
    Kwargs.policy_optimizer_fun kw = Some (optimizer_fun 3e-4) /\
    Kwargs.value_optimizer_fun kw = Some (optimizer_fun 1e-3).
Proof.
  split; [reflexivity|].
  destruct (learning_rate_binding cartpole (cartpole_env 4) (cartpole_env 2)
              fresh eq_refl)
    as (kw & names & E & _ & HS & _).
  exists kw. eexists. split; [exact E|].
  destruct (HS eq_refl) as (H1 & H2 & _). split; assumption.
Defined.

(** C4. The seed the trainer receives.  When the [random_seed] string
    parses as an integer, that is, when it is an integer literal for [n]
    (whitespace, an optional sign, decimal digits of any script with single
    underscores between them, whitespace), the seed is [n]: in particular
    for the decimal rendering of [n].  When the string is no integer
    literal, the seed is [None], and so it is when the flag is unset.  The
    trainer call is reached whatever the flag holds, so parsing the seed
    never fails the run. *)
Theorem random_seed_best_effort
    (training_loop : Kwargs.t -> World -> Outcome unit)
    (o : FLAGS.t) (env eval_env : EnvHandle) (w : World) :
  valid o = true ->
  exists kw w',
    training_loop_kwargs env eval_env o w = (Ret kw, w') /\
    run_training_loop training_loop env eval_env o w =
      (training_loop kw w', emit (EvTrain kw (jit_is_disabled w')) w') /\
    (forall s n, FLAGS.random_seed o = Some s -> integer_literal s n ->
                 Kwargs.random_seed kw = Some n) /\
    (forall s, FLAGS.random_seed o = Some s ->
               (forall n, ~ integer_literal s n) ->
               Kwargs.random_seed kw = None) /\
    (FLAGS.random_seed o = None -> Kwargs.random_seed kw = None) /\
    (forall n, (String.length (py_str n) <= 4300)%nat ->
               FLAGS.random_seed o = Some (py_str n) ->
               Kwargs.random_seed kw = Some n).
Proof.
  intros V. destruct (valid_problem_name o V) as [name P].
  destruct (training_loop_kwargs_run o env eval_env w name P)
    as (kw & E & _ & _ & S1 & S2 & S3 & _).
  exists kw. eexists. split; [exact E|].
  split; [apply run_training_loop_run; exact E|].
  split; [|split; [|split; [exact S3|]]].
  - intros s n H L. apply (S1 s n H). apply int_of_str_literal. exact L.
  - intros s H L. apply (S2 s H).
    destruct (int_of_str s) as [n|] eqn:I; [|reflexivity].
    destruct (L n). apply int_of_str_literal. exact I.
  - intros n B H. apply (S1 _ n H). apply int_of_str_py_str. exact B.
Qed.

Lemma random_seed_best_effort_witness :
  (valid (with_random_seed (Some " +4_2 ") cartpole) = true /\
   integer_literal " +4_2 " 42 /\
   exists kw w',
     training_loop_kwargs (cartpole_env 4) (cartpole_env 2)
       (with_random_seed (Some " +4_2 ") cartpole) fresh = (Ret kw, w') /\
     Kwargs.random_seed kw = Some 42) /\
  (valid (with_random_seed (Some "abc") cartpole) = true /\
   (forall n, ~ integer_literal "abc" n) /\
   exists kw w',
     training_loop_kwargs (cartpole_env 4) (cartpole_env 2)
       (with_random_seed (Some "abc") cartpole) fresh = (Ret kw, w') /\
     Kwargs.random_seed kw = None).
Proof.
  assert (L : integer_literal " +4_2 " 42)
    by (apply int_of_str_literal; reflexivity).
  assert (NL : forall n, ~ integer_literal "abc" n)
    by (intros n H; apply int_of_str_literal in H; discriminate H).
  split.
  - split; [reflexivity|]. split; [exact L|].
    destruct (random_seed_best_effort trainer_returns
                (with_random_seed (Some " +4_2 ") cartpole)
                (cartpole_env 4) (cartpole_env 2) fresh eq_refl)
      as (kw & w' & E & _ & S1 & _).
    exists kw, w'. split; [exact E|].
    exact (S1 " +4_2 " 42 eq_refl L).
  - split; [reflexivity|]. split; [exact NL|].
    destruct (random_seed_best_effort trainer_returns
                (with_random_seed (Some "abc") cartpole)
                (cartpole_env 4) (cartpole_env 2) fresh eq_refl)
      as (kw & w' & E & _ & _ & S2 & _).
    exists kw, w'. split; [exact E|].
    exact (S2 "abc" eq_refl NL).
Defined.

Example seed_parses :
  int_of_str "0" = Some 0 /\ int_of_str "42" = Some 42 /\
  int_of_str "-7" = Some (-7) /\ int_of_str "+7" = Some 7 /\
  int_of_str " 12 " = Some 12 /\ int_of_str "007" = Some 7 /\
  int_of_str "1_000" = Some 1000 /\ int_of_str "١٢" = Some 12 /\
  int_of_str "-٣_٤" = Some (-34) /\ int_of_str "１２" = Some 12 /\
  int_of_str " 7" = Some 7.
Proof. repeat split. Qed.

Example digit_limit :
  parse_int (repeat (CDigit 0) 4300) = Some 0 /\
  parse_int (CSpace :: CMinus :: repeat (CDigit 0) 4300) = Some 0 /\
  parse_int (repeat (CDigit 0) 4301) = None.
Proof. repeat split; vm_compute; reflexivity. Qed.

Example seed_does_not_parse :
  int_of_str "" = None /\ int_of_str "abc" = None /\
  int_of_str "1.5" = None /\ int_of_str "1e3" = None /\
  int_of_str "- 1" = None /\ int_of_str "1__0" = None /\
  int_of_str "_1" = None /\ int_of_str "1_" = None /\
  int_of_str "0x10" = None /\ int_of_str "--1" = None /\
  int_of_str "12☃" = None /\ int_of_str "½" = None.
Proof. repeat split. Qed.

(** ** The environment factory *)

(** C5. With [resize] unset, no [env_name] and a non-empty problem name,
    [make_env] returns the plain [EnvProblem] for the problem name, with the
    given batch size and reward range (-1, 1).  The only flags it reads are
    [env_name], [env_problem_name] and [resize], and the only constructor it
    calls is [EnvProblem]: the options of the rendering pipeline are not
    consulted, and changing any other option leaves the result unchanged. *)
Theorem make_env_plain (o : FLAGS.t) (batch_size : Z) (w : World) :
  truthy (FLAGS.env_name o) = false ->
  truthy (FLAGS.env_problem_name o) = true ->
  FLAGS.resize o = false ->
  let handle := EnvProblem (FLAGS.env_problem_name o) batch_size (-1, 1) in
  make_env batch_size o w =
    (Ret handle,
     extend [EvFlag "env_name"; EvFlag "env_problem_name"; EvFlag "resize";
             EvFlag "env_problem_name"; EvConstruct handle] w) /\
  forall o',
    FLAGS.env_name o' = FLAGS.env_name o ->
    FLAGS.env_problem_name o' = FLAGS.env_problem_name o ->
    FLAGS.resize o' = FLAGS.resize o ->
    make_env batch_size o' w = make_env batch_size o w.
Proof.
  intros H1 H2 H3 handle. split.
  - apply make_env_plain_run; assumption.
  - intros o' E1 E2 E3.
    rewrite (make_env_plain_run o), (make_env_plain_run o')
      by congruence.
    rewrite E2. reflexivity.
Qed.

Lemma make_env_plain_witness :
  make_env 4 cartpole fresh =
    (Ret (EnvProblem (Some "CartPole-v1") 4 (-1, 1)),
     extend [EvFlag "env_name"; EvFlag "env_problem_name"; EvFlag "resize";
             EvFlag "env_problem_name";
             EvConstruct (EnvProblem (Some "CartPole-v1") 4 (-1, 1))]
       fresh).
Proof.
  exact (proj1 (make_env_plain cartpole 4 fresh eq_refl eq_refl eq_refl)).
Defined.

(** C6. With [resize] set, no [env_name] and a non-empty problem name,
    [make_env] returns the [RenderedEnvProblem] for the problem name whose
    wrapper has [max_timestep] as episode-step limit, frame skip and
    rendering switched on, the resize target
    [(resized_height, resized_width)], sticky actions off, and output dtype
    [int32] when [use_tpu] is set and [None] otherwise. *)
Theorem make_env_rendered (o : FLAGS.t) (batch_size : Z) (w : World) :
  truthy (FLAGS.env_name o) = false ->
  truthy (FLAGS.env_problem_name o) = true ->
  FLAGS.resize o = true ->
  exists wrapper_fn w',
    make_env batch_size o w =
      (Ret (RenderedEnvProblem (FLAGS.env_problem_name o) batch_size
              wrapper_fn (-1, 1)), w') /\
    rl_env_max_episode_steps wrapper_fn = FLAGS.max_timestep o /\
    maxskip_env wrapper_fn = true /\
    rendered_env wrapper_fn = true /\
    rendered_env_resize_to wrapper_fn =
      (FLAGS.resized_height o, FLAGS.resized_width o) /\
    sticky_actions wrapper_fn = false /\
    (FLAGS.use_tpu o = true -> output_dtype wrapper_fn = Some int32) /\
    (FLAGS.use_tpu o = false -> output_dtype wrapper_fn = None) /\
    constructed w' =
      RenderedEnvProblem (FLAGS.env_problem_name o) batch_size wrapper_fn
        (-1, 1) :: constructed w.
Proof.
  intros H1 H2 H3.
  do 2 eexists. split; [apply make_env_rendered_run; assumption|].
  cbn. repeat split; intros ->; reflexivity.
Qed.

Lemma make_env_rendered_witness :
  exists w',
    make_env 32
      (with_resize true true (with_names None (Some "PongNoFrameskip-v4")
                                FLAGS.defaults)) fresh =
      (Ret (RenderedEnvProblem (Some "PongNoFrameskip-v4") 32
              {| rl_env_max_episode_steps := None;
                 maxskip_env := true;
                 rendered_env := true;
                 rendered_env_resize_to := (105, 80);
                 sticky_actions := false;
                 output_dtype := Some int32 |} (-1, 1)), w').
Proof.
  destruct (make_env_rendered
              (with_resize true true
                 (with_names None (Some "PongNoFrameskip-v4") FLAGS.defaults))
              32 fresh eq_refl eq_refl eq_refl)
    as (wrapper_fn & w' & E & _).
  exists w'. rewrite E.
  rewrite make_env_rendered_run in E by reflexivity.
  inversion E. reflexivity.
Defined.

(** ** Frames of [main] *)

Ltac frame_main_step side :=
  first
    [ frame_step
    | match goal with
      | |- maintains _ _ (modify _) =>
          frame_rule @maintains_modify; side
      | |- maintains _ _ copy_roms =>
          frame_rule @maintains_modify; side
      | |- maintains _ _ (make_env _) =>
          frame_rule @maintains_make_env; side
      | |- maintains _ _ (run_training_loop _ _ _) =>
          frame_rule @maintains_run_training_loop; side
      end ].

Ltac frame_main side := repeat (frame_main_step side).

#[global] Instance same_jit_frame : Frame same_jit.
Proof.
  split; unfold same_jit; intros; [reflexivity | congruence | reflexivity].
Qed.

(** The scoped mode is restored whatever the body does, and whether it
    returns or raises. *)
Lemma with_disable_jit_restores {A} (o : FLAGS.t) (body : M A) :
  maintains same_jit o (with_disable_jit body).
Proof.
  intros w. unfold with_disable_jit, same_jit.
  destruct (body o (set_jit_is_disabled true w)) as [r w']. reflexivity.
Qed.

#[global] Hint Resolve with_disable_jit_restores : frame.

Lemma main_restores_jit training_loop (o : FLAGS.t) :
  maintains same_jit o (main training_loop).
Proof.
  unfold main. frame_main ltac:(intros; reflexivity).
Qed.

#[global] Instance same_constructed_frame : Frame same_constructed.
Proof.
  split; unfold same_constructed; intros;
    [reflexivity | congruence | reflexivity].
Qed.

(** Resolving the networks and calling the trainer constructs no
    environment. *)
Lemma run_training_loop_constructs_nothing training_loop (o : FLAGS.t)
    (env eval_env : EnvHandle) :
  maintains same_constructed o (run_training_loop training_loop env eval_env).
Proof.
  frame_rule @maintains_run_training_loop. intros kw w. reflexivity.
Qed.

#[global] Instance constructs_only_frame P : Frame (constructs_only P).
Proof.
  split; unfold constructs_only.
  - intros w h H. left. exact H.
  - intros w1 w2 w3 H12 H23 h H.
    destruct (H23 h H) as [H2|HP]; [apply H12; exact H2 | right; exact HP].
  - intros name w h H. left. exact H.
Qed.

Lemma with_disable_jit_constructs_only {A} P (o : FLAGS.t) (body : M A) :
  maintains (constructs_only P) o body ->
  maintains (constructs_only P) o (with_disable_jit body).
Proof.
  intros HB w. unfold with_disable_jit.
  specialize (HB (set_jit_is_disabled true w)).
  destruct (body o (set_jit_is_disabled true w)) as [r w']. exact HB.
Qed.

Lemma main_constructs_only training_loop P (o : FLAGS.t) :
  (forall batch_size, maintains (constructs_only P) o (make_env batch_size)) ->
  maintains (constructs_only P) o (main training_loop).
Proof.
  intros HM. unfold main.
  frame_main ltac:(intros; intros ? ?; left; assumption).
  all: try apply HM.
  all: apply with_disable_jit_constructs_only.
  all: frame_main ltac:(intros; intros ? ?; left; assumption).
Qed.

(** ** [main], stage by stage *)

Lemma main_stages training_loop (o : FLAGS.t) (w : World) (name : string) :
  FLAGS.env_problem_name o = Some name ->
  main training_loop o w =
    make_envs_then (guarded_training training_loop) o (after_setup o name w).
Proof.
  intros P.
  unfold main, make_envs_then, guarded_training, after_setup.
  cbv [bind flag when modify ret py_in copy_roms]. rewrite P.
  destruct (FLAGS.jax_debug_nans o), (FLAGS.use_tpu o),
    (str_contains "Pong" name); try destruct (FLAGS.xm o); reflexivity.
Qed.

(** When the problem name is missing altogether, the "Pong" test of [main]
    raises before [make_env] is reached. *)
Lemma main_no_problem_name training_loop (o : FLAGS.t) (w : World) :
  FLAGS.env_problem_name o = None ->
  fst (main training_loop o w) = Raise TypeError /\
  constructed (snd (main training_loop o w)) = constructed w /\
  trace (snd (main training_loop o w)) =
    EvFlag "env_problem_name" :: EvFlag "use_tpu" :: EvFlag "jax_debug_nans"
      :: trace w.
Proof.
  intros P. unfold main.
  cbv [bind flag when modify ret py_in copy_roms]. rewrite P.
  destruct (FLAGS.jax_debug_nans o), (FLAGS.use_tpu o);
    repeat split; reflexivity.
Qed.

Lemma after_setup_frame (o : FLAGS.t) (name : string) (w : World) :
  jit_is_disabled (after_setup o name w) = jit_is_disabled w /\
  constructed (after_setup o name w) = constructed w /\
  cfg_debug_nans (after_setup o name w) =
    (FLAGS.jax_debug_nans o || cfg_debug_nans w)%bool /\
  cfg_platform_name (after_setup o name w) =
    (if FLAGS.use_tpu o then Some "tpu" else cfg_platform_name w) /\
  (forall kw j, In (EvTrain kw j) (trace (after_setup o name w)) ->
                In (EvTrain kw j) (trace w)).
Proof.
  unfold after_setup.
  destruct (FLAGS.jax_debug_nans o), (FLAGS.use_tpu o),
    (str_contains "Pong" name); try destruct (FLAGS.xm o);
    (repeat split; try reflexivity);
    cbn; intros kw j H; repeat (destruct H as [H|H]; [discriminate|]);
    exact H.
Qed.

(** In a valid option set both [make_env] calls return. *)
Lemma make_env_returns (o : FLAGS.t) (batch_size : Z) (w : World) :
  valid o = true ->
  exists env names,
    make_env batch_size o w =
      (Ret env, extend (map EvFlag names ++ [EvConstruct env]) w).
Proof.
  unfold valid. intros V.
  destruct (truthy (FLAGS.env_name o)) eqn:N.
  - exists (GymMake (FLAGS.env_name o)), ["env_name"; "env_name"].
    apply make_env_gym_run. exact N.
  - destruct (FLAGS.env_problem_name o) as [name|] eqn:P; [|discriminate].
    simpl in V.
    destruct (FLAGS.resize o) eqn:RS.
    + eexists.
      exists ["env_name"; "env_problem_name"; "resize"; "max_timestep";
              "resized_height"; "resized_width"; "use_tpu";
              "env_problem_name"].
      rewrite make_env_rendered_run by (rewrite ?P; assumption).
      rewrite P. reflexivity.
    + eexists. exists ["env_name"; "env_problem_name"; "resize";
                       "env_problem_name"].
      rewrite make_env_plain_run by (rewrite ?P; assumption).
      rewrite P. reflexivity.
Qed.

Lemma constructed_in_flags (names : list string) (evs : list Event) :
  constructed_in (rev (map EvFlag names) ++ evs) = constructed_in evs.
Proof.
  revert evs. induction names as [|n names IH]; intros evs; [reflexivity|].
  cbn [map rev]. rewrite <- app_assoc. rewrite IH. reflexivity.
Qed.

Lemma trains_in_flags (names : list string) (evs : list Event) kw j :
  In (EvTrain kw j) (rev (map EvFlag names) ++ evs) -> In (EvTrain kw j) evs.
Proof.
  revert evs. induction names as [|n names IH]; intros evs; [trivial|].
  cbn [map rev]. rewrite <- app_assoc. intros H. apply IH in H.
  destruct H as [H|H]; [discriminate | exact H].
Qed.

Lemma constructed_extend_flags (names : list string) (w : World) :
  constructed (extend (map EvFlag names) w) = constructed w.
Proof. apply constructed_in_flags. Qed.

Lemma constructed_extend_construct names (h : EnvHandle) (w : World) :
  constructed (extend (map EvFlag names ++ [EvConstruct h]) w)
  = h :: constructed w.
Proof.
  unfold constructed, extend; cbn [trace].
  rewrite rev_app_distr.
  change (constructed_in
            (EvConstruct h :: rev (map EvFlag names) ++ trace w)
          = h :: constructed_in (trace w)).
  cbn [constructed_in]. rewrite constructed_in_flags. reflexivity.
Qed.

(** The guarded training statement, for a problem name that is a string:
    the trainer is called, under a JIT mode that is disabled if one of the
    two flags is set (or if it was disabled already), and what the trainer
    returns or raises is the outcome. *)
Lemma guarded_training_run training_loop
    (o : FLAGS.t) (env eval_env : EnvHandle) (w : World) (name : string) :
  FLAGS.env_problem_name o = Some name ->
  let off := (FLAGS.jax_debug_nans o || FLAGS.disable_jit o)%bool in
  let final := snd (guarded_training training_loop env eval_env o w) in
  exists kw w_in wc,
    training_loop_kwargs env eval_env o w_in = (Ret kw, wc) /\
    fst (guarded_training training_loop env eval_env o w)
      = training_loop kw wc /\
    jit_is_disabled wc = (off || jit_is_disabled w)%bool /\
    trace final = EvTrain kw (off || jit_is_disabled w)%bool :: trace wc /\
    constructed wc = constructed w /\
    (forall kw' j, In (EvTrain kw' j) (trace wc) ->
                   In (EvTrain kw' j) (trace w)) /\
    cfg_debug_nans final = cfg_debug_nans w /\
    cfg_platform_name final = cfg_platform_name w /\
    jit_is_disabled final = jit_is_disabled w.
Proof.
  intros P off final. subst off final.
  unfold guarded_training. cbv [bind flag ret].
  destruct (FLAGS.jax_debug_nans o); [|destruct (FLAGS.disable_jit o)];
    cbv iota beta; unfold with_disable_jit;
    match goal with
    | |- context [run_training_loop _ _ _ _ ?w0] =>
        destruct (training_loop_kwargs_run o env eval_env w0 name P)
          as (kw & E & _);
        rewrite (run_training_loop_run _ _ _ _ _ _ _ E);
        exists kw, w0; eexists; (split; [exact E|])
    end;
    cbn [fst snd emit extend trace jit_is_disabled set_jit_is_disabled
         cfg_debug_nans cfg_platform_name orb];
    (repeat split; try reflexivity);
    match goal with
    | |- constructed _ = _ =>
        rewrite constructed_extend_flags; reflexivity
    | |- forall _, _ =>
        intros kw' j H; apply trains_in_flags in H;
        repeat (destruct H as [H|H]; [discriminate|]); exact H
    end.
Qed.

(** [main] on a valid option set: both environments are made, the trainer
    is called with them, and the outcome of [main] is the trainer's. *)
Lemma main_valid_run training_loop (o : FLAGS.t) (w : World) :
  valid o = true ->
  let off := (FLAGS.jax_debug_nans o || FLAGS.disable_jit o)%bool in
  let final := snd (main training_loop o w) in
  exists env eval_env kw w_in wc,
    (exists w1, fst (make_env (FLAGS.batch_size o) o w1) = Ret env) /\
    (exists w2,
        fst (make_env (FLAGS.eval_batch_size o) o w2) = Ret eval_env) /\
    training_loop_kwargs env eval_env o w_in = (Ret kw, wc) /\
    Kwargs.env kw = env /\
    Kwargs.eval_env kw = eval_env /\
    fst (main training_loop o w) = training_loop kw wc /\
    jit_is_disabled wc = (off || jit_is_disabled w)%bool /\
    trace final = EvTrain kw (off || jit_is_disabled w)%bool :: trace wc /\
    constructed final = eval_env :: env :: constructed w /\
    (forall kw' j, In (EvTrain kw' j) (trace wc) ->
                   In (EvTrain kw' j) (trace w)) /\
    cfg_debug_nans final = (FLAGS.jax_debug_nans o || cfg_debug_nans w)%bool /\
    cfg_platform_name final =
      (if FLAGS.use_tpu o then Some "tpu" else cfg_platform_name w) /\
    jit_is_disabled final = jit_is_disabled w.
Proof.
  intros V off final. subst off final.
  destruct (valid_problem_name o V) as [name P].
  rewrite (main_stages training_loop o w name P).
  destruct (after_setup_frame o name w) as (SJ & SC & SN & SP & ST).
  set (w0 := after_setup o name w) in *.
  unfold make_envs_then. cbv [bind flag].
  destruct (make_env_returns o (FLAGS.batch_size o)
              (emit (EvFlag "batch_size") w0) V) as (env & n1 & E1).
  rewrite E1. cbn [env_truthy assert_ ret].
  set (w1 := extend (map EvFlag n1 ++ [EvConstruct env])
               (emit (EvFlag "batch_size") w0)) in *.
  destruct (make_env_returns o (FLAGS.eval_batch_size o)
              (emit (EvFlag "eval_batch_size") w1) V) as (eval_env & n2 & E2).
  rewrite E2. cbn [env_truthy assert_ ret].
  set (w2 := extend (map EvFlag n2 ++ [EvConstruct eval_env])
               (emit (EvFlag "eval_batch_size") w1)) in *.
  destruct (guarded_training_run training_loop o env eval_env w2 name P)
    as (kw & w_in & wc & K & F & J & T & C & TR & N' & P' & J').
  assert (K' := K).
  destruct (training_loop_kwargs_run o env eval_env w_in name P)
    as (kw0 & K0 & KE & KV & _).
  rewrite K0 in K'. inversion K'; subst kw0.
  assert (C2 : constructed w2 = eval_env :: env :: constructed w).
  { subst w2. rewrite constructed_extend_construct. f_equal.
    change (constructed (emit (EvFlag "eval_batch_size") w1))
      with (constructed w1).
    subst w1. rewrite constructed_extend_construct. f_equal. exact SC. }
  assert (J2 : jit_is_disabled w2 = jit_is_disabled w) by exact SJ.
  assert (N2 : cfg_debug_nans w2 = cfg_debug_nans w0) by reflexivity.
  assert (P2 : cfg_platform_name w2 = cfg_platform_name w0) by reflexivity.
  exists env, eval_env, kw, w_in, wc.
  split; [eexists; rewrite E1; reflexivity|].
  split; [eexists; rewrite E2; reflexivity|].
  split; [exact K|]. split; [exact KE|]. split; [exact KV|].
  split; [exact F|].
  split; [rewrite J, J2; reflexivity|].
  split; [rewrite T, J2; reflexivity|].
  split.
  { unfold constructed at 1. rewrite T. cbn [constructed_in].
    fold (constructed wc). rewrite C. exact C2. }
  split.
  { intros kw' j H. apply TR in H. subst w2. cbn [extend trace] in H.
    rewrite rev_app_distr in H. cbn [rev app] in H.
    destruct H as [H|H]; [discriminate|].
    apply trains_in_flags in H. cbn [emit trace] in H.
    destruct H as [H|H]; [discriminate|].
    subst w1. cbn [extend trace] in H.
    rewrite rev_app_distr in H. cbn [rev app] in H.
    destruct H as [H|H]; [discriminate|].
    apply trains_in_flags in H. cbn [emit trace] in H.
    destruct H as [H|H]; [discriminate|].
    apply ST. exact H. }
  split; [rewrite N', N2; exact SN|].
  split; [rewrite P', P2; exact SP|].
  rewrite J'. exact J2.
Qed.

(** When no environment is named, [main] aborts before anything is
    constructed: with a [TypeError] from the "Pong" test when the problem
    name is unset, with the [AssertionError] of [make_env] when it is
    empty. *)
Lemma main_missing_identifier training_loop (o : FLAGS.t) (w : World) :
  truthy (FLAGS.env_name o) = false ->
  truthy (FLAGS.env_problem_name o) = false ->
  let final := snd (main training_loop o w) in
  fst (main training_loop o w) =
    Raise (match FLAGS.env_problem_name o with
           | None => TypeError
           | Some _ => AssertionError
           end) /\
  constructed final = constructed w /\
  (forall kw j, In (EvTrain kw j) (trace final) ->
                In (EvTrain kw j) (trace w)).
Proof.
  intros N P final. subst final.
  destruct (FLAGS.env_problem_name o) as [name|] eqn:E.
  - rewrite (main_stages training_loop o w name E).
    destruct (after_setup_frame o name w) as (_ & SC & _ & _ & ST).
    unfold make_envs_then. cbv [bind flag].
    rewrite make_env_assert_run by (rewrite ?E; assumption).
    cbn [fst snd]. split; [reflexivity|]. split.
    + rewrite (constructed_extend_flags ["env_name"; "env_problem_name"]).
      exact SC.
    + intros kw j H. apply ST.
      cbn in H. repeat (destruct H as [H|H]; [discriminate|]). exact H.
  - destruct (main_no_problem_name training_loop o w E) as (F & C & T).
    split; [exact F|]. split; [exact C|].
    intros kw j H. rewrite T in H.
    repeat (destruct H as [H|H]; [discriminate|]). exact H.
Qed.

(** C2. A run without any environment flag.  [make_env] on its own reports
    the missing environment by its assertion, but [main] does not get that
    far: the "Pong" test on the unset problem name raises a [TypeError]
    first.  Nothing has been constructed at that point, and the trainer is
    not called.  With the empty problem name, the assertion is what stops
    [main]. *)
Theorem main_defaults_raise_TypeError
    (training_loop : Kwargs.t -> World -> Outcome unit) :
  main training_loop FLAGS.defaults fresh =
    (Raise TypeError,
     extend [EvFlag "jax_debug_nans"; EvFlag "use_tpu";
             EvFlag "env_problem_name"] fresh) /\
  fst (make_env (FLAGS.batch_size FLAGS.defaults) FLAGS.defaults fresh) =
    Raise AssertionError /\
  main training_loop (with_names None (Some "") FLAGS.defaults) fresh =
    (Raise AssertionError,
     extend [EvFlag "jax_debug_nans"; EvFlag "use_tpu";
             EvFlag "env_problem_name"; EvFlag "batch_size";
             EvFlag "env_name"; EvFlag "env_problem_name"] fresh).
Proof.
  repeat split; vm_compute; reflexivity.
Qed.

(** ** Which option sets reach the trainer *)

Lemma main_trains_only_if_valid training_loop (o : FLAGS.t) kw j :
  In (EvTrain kw j) (trace (snd (main training_loop o fresh))) ->
  valid o = true.
Proof.
  intros H. unfold valid.
  destruct (FLAGS.env_problem_name o) as [name|] eqn:E.
  - destruct (truthy (FLAGS.env_name o)) eqn:N; [reflexivity|].
    destruct (truthy (Some name)) eqn:T; [reflexivity|].
    rewrite <- E in T.
    destruct (main_missing_identifier training_loop o fresh N T)
      as (_ & _ & HT).
    destruct (HT kw j H).
  - destruct (main_no_problem_name training_loop o fresh E) as (_ & _ & T).
    rewrite T in H.
    repeat (destruct H as [H|H]; [discriminate|]). destruct H.
Qed.

(** ** Naming the environment *)

Lemma make_env_gym_only (o : FLAGS.t) (batch_size : Z) :
  truthy (FLAGS.env_name o) = true ->
  maintains (constructs_only (fun h => h = GymMake (FLAGS.env_name o))) o
    (make_env batch_size).
Proof.
  intros N w h. rewrite (make_env_gym_run o batch_size w N).
  cbn [snd]. unfold constructed. cbn.
  intros [H|H]; [right; symmetry; exact H | left; exact H].
Qed.

(** C9. When [env_name] is given (non-empty), it takes precedence:
    [make_env] reads no flag but [env_name] and returns [gym.make(env_name)],
    whatever [env_problem_name] holds, and every environment constructed
    during a run of [main] is [gym.make(env_name)]; the constructors that
    take the problem name are never called. *)
Theorem env_name_takes_precedence
    (training_loop : Kwargs.t -> World -> Outcome unit)
    (o : FLAGS.t) (batch_size : Z) (w : World) :
  truthy (FLAGS.env_name o) = true ->
  make_env batch_size o w =
    (Ret (GymMake (FLAGS.env_name o)),
     extend [EvFlag "env_name"; EvFlag "env_name";
             EvConstruct (GymMake (FLAGS.env_name o))] w) /\
  (forall problem : optstr,
     make_env batch_size (with_names (FLAGS.env_name o) problem o) w =
     make_env batch_size o w) /\
  (forall h,
     In h (constructed (snd (main training_loop o w))) ->
     In h (constructed w) \/ h = GymMake (FLAGS.env_name o)).
Proof.
  intros N. split; [apply make_env_gym_run; exact N|]. split.
  - intros problem.
    rewrite (make_env_gym_run o batch_size w N).
    rewrite make_env_gym_run by exact N. reflexivity.
  - apply (main_constructs_only training_loop
             (fun h => h = GymMake (FLAGS.env_name o)) o).
    intros bs. apply make_env_gym_only. exact N.
Qed.

Lemma env_name_takes_precedence_witness :
  make_env 32
    (with_names (Some "CartPole-v0") (Some "Acrobot-v1") FLAGS.defaults)
    fresh =
  (Ret (GymMake (Some "CartPole-v0")),
   extend [EvFlag "env_name"; EvFlag "env_name";
           EvConstruct (GymMake (Some "CartPole-v0"))] fresh).
Proof.
  exact (proj1 (env_name_takes_precedence trainer_returns
                  (with_names (Some "CartPole-v0") (Some "Acrobot-v1")
                     FLAGS.defaults) 32 fresh eq_refl)).
Defined.

(** C10. When [env_name] is given (non-empty), [make_env] returns the bare
    [gym.make(env_name)] for every batch size and whatever the other options
    are: the handle carries neither a batch size nor a reward range.  In a
    run of [main] (the problem name being a string, as the "Pong" test
    needs) the two environments constructed, for training and for
    evaluation, are therefore the same call, and they are what the trainer
    receives. *)
Theorem gym_env_ignores_batching
    (training_loop : Kwargs.t -> World -> Outcome unit)
    (o : FLAGS.t) (w : World) :
  truthy (FLAGS.env_name o) = true ->
  (forall (batch_size batch_size' : Z) (o' : FLAGS.t) (w' : World),
     FLAGS.env_name o' = FLAGS.env_name o ->
     fst (make_env batch_size' o' w') = Ret (GymMake (FLAGS.env_name o)) /\
     make_env batch_size' o' w' = make_env batch_size o' w' /\
     constructed (snd (make_env batch_size' o' w')) =
       GymMake (FLAGS.env_name o) :: constructed w') /\
  (forall name, FLAGS.env_problem_name o = Some name ->
     exists kw wc,
       fst (main training_loop o w) = training_loop kw wc /\
       Kwargs.env kw = GymMake (FLAGS.env_name o) /\
       Kwargs.eval_env kw = GymMake (FLAGS.env_name o) /\
       constructed (snd (main training_loop o w)) =
         GymMake (FLAGS.env_name o) :: GymMake (FLAGS.env_name o)
           :: constructed w).
Proof.
  intros N. split.
  - intros bs bs' o' w' E.
    assert (N' : truthy (FLAGS.env_name o') = true) by (rewrite E; exact N).
    rewrite !(make_env_gym_run o' bs' w' N'), (make_env_gym_run o' bs w' N').
    rewrite E. repeat split.
  - intros name P.
    assert (V : valid o = true) by (unfold valid; rewrite P, N; reflexivity).
    destruct (main_valid_run training_loop o w V)
      as (env & eval_env & kw & w_in & wc & [w1 M1] & [w2 M2] & _ & KE & KV
          & F & _ & _ & C & _).
    rewrite make_env_gym_run in M1, M2 by exact N.
    cbn [fst] in M1, M2.
    assert (E1 : env = GymMake (FLAGS.env_name o)) by congruence.
    assert (E2 : eval_env = GymMake (FLAGS.env_name o)) by congruence.
    exists kw, wc. repeat split; congruence.
Qed.

Lemma gym_env_ignores_batching_witness :
  fst (make_env 32
         (with_names (Some "CartPole-v0") (Some "Acrobot-v1") FLAGS.defaults)
         fresh)
  = fst (make_env 4
           (with_names (Some "CartPole-v0") (Some "Acrobot-v1")
              FLAGS.defaults) fresh).
Proof.
  pose proof
    (proj1 (gym_env_ignores_batching trainer_returns
              (with_names (Some "CartPole-v0") (Some "Acrobot-v1")
                 FLAGS.defaults) fresh eq_refl)) as H.
  destruct (H 32 4 _ fresh eq_refl) as (_ & E & _).
  rewrite E. reflexivity.
Defined.

(** With [env_name] given but the problem name left unset, [main] does not
    get as far as making the environment. *)
Example main_env_name_only training_loop :
  fst (main training_loop (with_names (Some "CartPole-v0") None
                             FLAGS.defaults) fresh)
  = Raise TypeError.
Proof. reflexivity. Qed.

(** ** The execution mode *)

#[global] Instance same_config_frame : Frame same_config.
Proof.
  split; unfold same_config.
  - intros w. split; reflexivity.
  - intros w1 w2 w3 [A1 A2] [B1 B2]. split; congruence.
  - intros name w. split; reflexivity.
Qed.

Lemma with_disable_jit_same_config {A} (o : FLAGS.t) (body : M A) :
  maintains same_config o body ->
  maintains same_config o (with_disable_jit body).
Proof.
  intros HB w. unfold with_disable_jit.
  specialize (HB (set_jit_is_disabled true w)).
  destruct (body o (set_jit_is_disabled true w)) as [r w']. exact HB.
Qed.

Lemma make_envs_then_training_same_config training_loop (o : FLAGS.t) :
  maintains same_config o (make_envs_then (guarded_training training_loop)).
Proof.
  unfold make_envs_then, guarded_training.
  frame_main ltac:(intros; split; reflexivity).
  all: apply with_disable_jit_same_config.
  all: frame_main ltac:(intros; split; reflexivity).
Qed.

(** The configuration updates of [main] are made first and stay. *)
Lemma main_config training_loop (o : FLAGS.t) (w : World) :
  let final := snd (main training_loop o w) in
  cfg_debug_nans final = (FLAGS.jax_debug_nans o || cfg_debug_nans w)%bool /\
  cfg_platform_name final =
    (if FLAGS.use_tpu o then Some "tpu" else cfg_platform_name w).
Proof.
  intros final. subst final.
  destruct (FLAGS.env_problem_name o) as [name|] eqn:E.
  - rewrite (main_stages training_loop o w name E).
    destruct (after_setup_frame o name w) as (_ & _ & SN & SP & _).
    destruct (make_envs_then_training_same_config training_loop o
                (after_setup o name w)) as [A B].
    rewrite A, B. split; assumption.
  - unfold main. cbv [bind flag when modify ret py_in copy_roms].
    rewrite E.
    destruct (FLAGS.jax_debug_nans o), (FLAGS.use_tpu o);
      split; reflexivity.
Qed.

Lemma invalid_cases (o : FLAGS.t) :
  valid o = false ->
  FLAGS.env_problem_name o = None \/
  (truthy (FLAGS.env_name o) = false /\
   truthy (FLAGS.env_problem_name o) = false).
Proof.
  unfold valid. destruct (FLAGS.env_problem_name o) as [name|];
    [|left; reflexivity].
  intros H. apply orb_false_iff in H. right. exact H.
Qed.

(** C8, as amended.  The trainer runs with JIT compilation disabled when
    [jax_debug_nans] or [disable_jit] is set, and in the mode [main] found
    otherwise; on a valid option set the trainer is called, and what it
    returns or raises is the outcome of [main].  In every case, whether
    [main] returns or raises, the JIT mode is afterwards what it was before.
    The configuration updates are not scoped: after [main], the
    [jax_debug_nans] setting is on if the flag was set, and the platform is
    "tpu" if [use_tpu] was set. *)
Theorem training_runs_in_scoped_jit_mode
    (training_loop : Kwargs.t -> World -> Outcome unit)
    (o : FLAGS.t) (w : World) :
  let off := (FLAGS.jax_debug_nans o || FLAGS.disable_jit o)%bool in
  let final := snd (main training_loop o w) in
  jit_is_disabled final = jit_is_disabled w /\
  (forall kw j, In (EvTrain kw j) (trace final) ->
                In (EvTrain kw j) (trace w) \/
                j = (off || jit_is_disabled w)%bool) /\
  (valid o = true ->
   exists kw wc,
     fst (main training_loop o w) = training_loop kw wc /\
     jit_is_disabled wc = (off || jit_is_disabled w)%bool /\
     trace final = EvTrain kw (off || jit_is_disabled w)%bool :: trace wc) /\
  cfg_debug_nans final = (FLAGS.jax_debug_nans o || cfg_debug_nans w)%bool /\
  cfg_platform_name final =
    (if FLAGS.use_tpu o then Some "tpu" else cfg_platform_name w).
Proof.
  intros off final. subst off final.
  split; [apply main_restores_jit|].
  split; [|split; [|apply main_config]].
  - intros kw j H. destruct (valid o) eqn:V.
    + destruct (main_valid_run training_loop o w V)
        as (env & eval_env & kw0 & w_in & wc & _ & _ & _ & _ & _ & _ & _ & T
            & _ & TR & _).
      rewrite T in H. destruct H as [H|H].
      * right. inversion H. reflexivity.
      * left. apply TR. exact H.
    + left. destruct (invalid_cases o V) as [E|[N P]].
      * destruct (main_no_problem_name training_loop o w E) as (_ & _ & T).
        rewrite T in H.
        repeat (destruct H as [H|H]; [discriminate|]). exact H.
      * destruct (main_missing_identifier training_loop o w N P)
          as (_ & _ & HT).
        apply HT. exact H.
  - intros V.
    destruct (main_valid_run training_loop o w V)
      as (env & eval_env & kw & w_in & wc & _ & _ & _ & _ & _ & F & J & T
          & _).
    exists kw, wc. repeat split; assumption.
Qed.

Lemma training_runs_in_scoped_jit_mode_witness :
  valid (with_debug true false cartpole) = true /\
  exists kw wc,
    fst (main trainer_raises (with_debug true false cartpole) fresh)
      = trainer_raises kw wc /\
    jit_is_disabled wc = true /\
    jit_is_disabled
      (snd (main trainer_raises (with_debug true false cartpole) fresh))
      = false.
Proof.
  split; [reflexivity|].
  destruct (training_runs_in_scoped_jit_mode trainer_raises
              (with_debug true false cartpole) fresh)
    as (J & _ & H & _).
  destruct (H eq_refl) as (kw & wc & F & JC & _).
  exists kw, wc. repeat split; assumption.
Defined.

(** C8, as stated, fails: a run with [jax_debug_nans] set leaves the
    process with the [jax_debug_nans] configuration switched on. *)
Lemma debug_nans_not_restored :
  ~ backend_restored fresh
      (snd (main trainer_returns (with_debug true false cartpole) fresh)).
Proof.
  intros (_ & H & _). vm_compute in H. discriminate H.
Qed.

Example jit_restored_when_trainer_raises :
  main trainer_raises (with_debug false true cartpole) fresh =
    (Raise (ExternalError "training_loop"),
     snd (main trainer_returns (with_debug false true cartpole) fresh)) /\
  jit_is_disabled
    (snd (main trainer_raises (with_debug false true cartpole) fresh))
    = false.
Proof. split; vm_compute; reflexivity. Qed.

(** ** End-to-end runs *)

(** [--env_problem_name=CartPole-v1 --batch_size=4 --eval_batch_size=2]:
    two plain environments with batch sizes 4 and 2 and reward range
    (-1, 1), separate policy and value networks with their own optimizer
    factories, and no explicit seed. *)
Example run_cartpole :
  let final := snd (main trainer_returns cartpole fresh) in
  exists kw earlier,
    trace final = EvTrain kw false :: earlier /\
    fst (main trainer_returns cartpole fresh) = Ret tt /\
    constructed final = [EnvProblem (Some "CartPole-v1") 2 (-1, 1);
                         EnvProblem (Some "CartPole-v1") 4 (-1, 1)] /\
    Kwargs.env kw = EnvProblem (Some "CartPole-v1") 4 (-1, 1) /\
    Kwargs.eval_env kw = EnvProblem (Some "CartPole-v1") 2 (-1, 1) /\
    Kwargs.policy_net_fun kw
      = Some (policy_net [Dense 64; Tanh; Dense 64; Tanh]) /\
    Kwargs.value_net_fun kw
      = Some (value_net [Dense 64; Tanh; Dense 64; Tanh]) /\
    Kwargs.policy_optimizer_fun kw = Some (optimizer_fun 3e-4) /\
    Kwargs.value_optimizer_fun kw = Some (optimizer_fun 1e-3) /\
    Kwargs.policy_and_value_net_fun kw = None /\
    Kwargs.policy_and_value_optimizer_fun kw = None /\
    Kwargs.random_seed kw = None.
Proof.
  cbv zeta. do 2 eexists. split; [vm_compute; reflexivity|].
  repeat split.
Qed.

(** A Pong run on TPU with resizing and a combined network: the rendered
    environments, the ROM copy left out (not on the cluster), and the
    convolutional body selected by reference. *)
Example run_pong :
  let o :=
    with_random_seed (Some "0")
      (with_combined_network true
         (with_resize true true
            (with_names None (Some "PongNoFrameskip-v4") FLAGS.defaults))) in
  let wrapper_fn :=
    {| rl_env_max_episode_steps := None;
       maxskip_env := true;
       rendered_env := true;
       rendered_env_resize_to := (105, 80);
       sticky_actions := false;
       output_dtype := Some int32 |} in
  let final := snd (main trainer_returns o fresh) in
  exists kw earlier,
    trace final = EvTrain kw false :: earlier /\
    fst (main trainer_returns o fresh) = Ret tt /\
    cfg_platform_name final = Some "tpu" /\
    constructed final =
      [RenderedEnvProblem (Some "PongNoFrameskip-v4") 4 wrapper_fn (-1, 1);
       RenderedEnvProblem (Some "PongNoFrameskip-v4") 32 wrapper_fn (-1, 1)]
    /\
    Kwargs.policy_and_value_net_fun kw
      = Some (policy_and_value_net common_layers_fn true) /\
    Kwargs.policy_and_value_optimizer_fun kw = Some (optimizer_fun 1e-3) /\
    Kwargs.policy_net_fun kw = None /\
    Kwargs.random_seed kw = Some 0.
Proof.
  cbv zeta. do 2 eexists. split; [vm_compute; reflexivity|].
  repeat split.
Qed.

(** * Further properties of the driver *)

(** ** [make_env] *)

Lemma make_env_problem_run (o : FLAGS.t) (batch_size : Z) (w : World) :
  truthy (FLAGS.env_name o) = false ->
  truthy (FLAGS.env_problem_name o) = true ->
  fst (make_env batch_size o w) = Ret (problem_env o batch_size) /\
  constructed (snd (make_env batch_size o w))
    = problem_env o batch_size :: constructed w.
Proof.
  intros N P. unfold problem_env. destruct (FLAGS.resize o) eqn:RS.
  - rewrite make_env_rendered_run by assumption. cbv zeta. cbn [fst snd].
    split; [reflexivity|].
    apply (constructed_extend_construct
             ["env_name"; "env_problem_name"; "resize"; "max_timestep";
              "resized_height"; "resized_width"; "use_tpu";
              "env_problem_name"]).
  - rewrite make_env_plain_run by assumption. cbn [fst snd].
    split; [reflexivity|].
    apply (constructed_extend_construct
             ["env_name"; "env_problem_name"; "resize"; "env_problem_name"]).
Qed.

(** X1. With neither name given (each unset or empty), [make_env] fails
    its assertion before it calls any constructor.  Whenever it returns, a
    name was given, it has called exactly one constructor, and what it
    returns is the result of that call: [gym.make(env_name)] when
    [env_name] is given, the environment of the problem name otherwise. *)
Theorem make_env_outcome (o : FLAGS.t) (batch_size : Z) (w : World) :
  let final := snd (make_env batch_size o w) in
  (truthy (FLAGS.env_name o) = false ->
   truthy (FLAGS.env_problem_name o) = false ->
   fst (make_env batch_size o w) = Raise AssertionError /\
   constructed final = constructed w) /\
  (forall h,
     fst (make_env batch_size o w) = Ret h ->
     (truthy (FLAGS.env_name o) = true \/
      truthy (FLAGS.env_problem_name o) = true) /\
     constructed final = h :: constructed w /\
     h = if truthy (FLAGS.env_name o) then GymMake (FLAGS.env_name o)
         else problem_env o batch_size).
Proof.
  intros final. subst final. split.
  - intros N P. rewrite make_env_assert_run by assumption. cbn [fst snd].
    split; reflexivity.
  - intros h H. destruct (truthy (FLAGS.env_name o)) eqn:N.
    + rewrite make_env_gym_run in H |- * by exact N. cbn [fst snd] in *.
      inversion H; subst h.
      split; [left; reflexivity|]. split; [|reflexivity].
      apply (constructed_extend_construct ["env_name"; "env_name"]).
    + destruct (truthy (FLAGS.env_problem_name o)) eqn:P.
      * destruct (make_env_problem_run o batch_size w N P) as [E C].
        rewrite E in H. inversion H; subst h.
        split; [right; reflexivity|]. split; [exact C | reflexivity].
      * rewrite make_env_assert_run in H by assumption. discriminate H.
Qed.

Lemma make_env_outcome_witness :
  fst (make_env 32 FLAGS.defaults fresh) = Raise AssertionError /\
  constructed (snd (make_env 4 cartpole fresh)) = [cartpole_env 4].
Proof.
  split.
  - exact (proj1 (proj1 (make_env_outcome FLAGS.defaults 32 fresh)
                    eq_refl eq_refl)).
  - exact (proj1 (proj2 (proj2 (make_env_outcome cartpole 4 fresh)
                           (cartpole_env 4) eq_refl))).
Defined.

(** X2. An empty [env_name] is the same as none: [make_env] does the same,
    whatever the problem name, the batch size and the other flags are. *)
Theorem empty_env_name_is_unset
    (o : FLAGS.t) (problem : optstr) (batch_size : Z) (w : World) :
  make_env batch_size (with_names (Some "") problem o) w
  = make_env batch_size (with_names None problem o) w.
Proof.
  destruct (truthy problem) eqn:P.
  - destruct (FLAGS.resize o) eqn:RS.
    + rewrite !make_env_rendered_run by (try exact P; try exact RS; reflexivity).
      reflexivity.
    + rewrite !make_env_plain_run by (try exact P; try exact RS; reflexivity).
      reflexivity.
  - rewrite !make_env_assert_run by (try exact P; reflexivity).
    reflexivity.
Qed.

(** ** What the trainer is given *)

Lemma training_loop_kwargs_scalars
    (o : FLAGS.t) (env eval_env : EnvHandle) (w : World) (name : string) :
  FLAGS.env_problem_name o = Some name ->
  exists kw,
    training_loop_kwargs env eval_env o w =
      (Ret kw, extend (map EvFlag (kwargs_reads o name)) w) /\
    Kwargs.epochs kw = FLAGS.epochs o /\
    Kwargs.num_optimizer_steps kw = FLAGS.num_optimizer_steps o /\
    Kwargs.policy_only_num_optimizer_steps kw
      = FLAGS.policy_only_num_optimizer_steps o /\
    Kwargs.value_only_num_optimizer_steps kw
      = FLAGS.value_only_num_optimizer_steps o /\
    Kwargs.print_every_optimizer_steps kw
      = FLAGS.print_every_optimizer_steps o /\
    Kwargs.batch_size kw = FLAGS.batch_size o /\
    Kwargs.target_kl kw = FLAGS.target_kl o /\
    Kwargs.boundary kw = FLAGS.boundary o /\
    Kwargs.max_timestep kw = FLAGS.truncation_timestep o /\
    Kwargs.c1 kw = FLAGS.value_coef o /\
    Kwargs.c2 kw = FLAGS.entropy_coef o /\
    Kwargs.gamma kw = FLAGS.gamma o /\
    Kwargs.lambda_ kw = FLAGS.lambda_ o /\
    Kwargs.epsilon kw = FLAGS.epsilon o /\
    Kwargs.enable_early_stopping kw = FLAGS.enable_early_stopping o /\
    Kwargs.output_dir kw = FLAGS.output_dir o /\
    Kwargs.eval_every_n kw = FLAGS.eval_every_n o.
Proof.
  intros P.
  unfold training_loop_kwargs, common_layers, get_optimizer_fun,
    kwargs_reads, network_reads, common_layers_reads.
  run.
  destruct (FLAGS.combined_network o); run; rewrite ?P; run;
    try (destruct (str_contains "Pong" name); run);
    try (destruct (FLAGS.flatten_dims o); run);
    destruct (FLAGS.random_seed o) as [s|]; run;
    try (destruct (int_of_str s) as [n|] eqn:I; run).
  all: eexists; split; [reflexivity|].
  all: cbn.
  all: repeat split.
Qed.

Lemma flag_in_extend (n : string) (names : list string) (w : World) :
  In (EvFlag n) (trace (extend (map EvFlag names) w)) ->
  In n names \/ In (EvFlag n) (trace w).
Proof.
  cbn [extend trace]. intros H. apply in_app_or in H as [H|H].
  - left. apply in_rev in H. apply in_map_iff in H as (x & E & H).
    inversion E; subst. exact H.
  - right. exact H.
Qed.

Lemma max_timestep_not_in_kwargs_reads (o : FLAGS.t) (name : string) :
  ~ In "max_timestep" (kwargs_reads o name).
Proof.
  apply not_In_existsb.
  unfold kwargs_reads, network_reads, common_layers_reads.
  destruct (FLAGS.combined_network o), (str_contains "Pong" name);
    reflexivity.
Qed.

(** X3. The hyperparameters reach the trainer unchanged, each from the flag
    of its name, with three renamings: the trainer's [max_timestep] is the
    flag [truncation_timestep] (the flag [max_timestep] is not read here,
    it only configures the environment wrapper), and its [c1] and [c2] are
    [value_coef] and [entropy_coef].  Its [batch_size] is the training batch
    size. *)
Theorem hyperparameters_pass_through
    (o : FLAGS.t) (env eval_env : EnvHandle) (w : World) :
  valid o = true ->
  exists kw w',
    training_loop_kwargs env eval_env o w = (Ret kw, w') /\
    Kwargs.epochs kw = FLAGS.epochs o /\
    Kwargs.num_optimizer_steps kw = FLAGS.num_optimizer_steps o /\
    Kwargs.policy_only_num_optimizer_steps kw
      = FLAGS.policy_only_num_optimizer_steps o /\
    Kwargs.value_only_num_optimizer_steps kw
      = FLAGS.value_only_num_optimizer_steps o /\
    Kwargs.print_every_optimizer_steps kw
      = FLAGS.print_every_optimizer_steps o /\
    Kwargs.batch_size kw = FLAGS.batch_size o /\
    Kwargs.target_kl kw = FLAGS.target_kl o /\
    Kwargs.boundary kw = FLAGS.boundary o /\
    Kwargs.max_timestep kw = FLAGS.truncation_timestep o /\
    Kwargs.c1 kw = FLAGS.value_coef o /\
    Kwargs.c2 kw = FLAGS.entropy_coef o /\
    Kwargs.gamma kw = FLAGS.gamma o /\
    Kwargs.lambda_ kw = FLAGS.lambda_ o /\
    Kwargs.epsilon kw = FLAGS.epsilon o /\
    Kwargs.enable_early_stopping kw = FLAGS.enable_early_stopping o /\
    Kwargs.output_dir kw = FLAGS.output_dir o /\
    Kwargs.eval_every_n kw = FLAGS.eval_every_n o /\
    (In (EvFlag "max_timestep") (trace w') ->
     In (EvFlag "max_timestep") (trace w)).
Proof.
  intros V. destruct (valid_problem_name o V) as [name P].
  destruct (training_loop_kwargs_scalars o env eval_env w name P)
    as (kw & E & H).
  exists kw. eexists. split; [exact E|].
  decompose [and] H. repeat (split; [assumption|]).
  intros I. apply flag_in_extend in I as [I|I]; [|exact I].
  destruct (max_timestep_not_in_kwargs_reads o name I).
Qed.

Lemma hyperparameters_pass_through_witness :
  valid cartpole = true /\
  exists kw w',
    training_loop_kwargs (cartpole_env 4) (cartpole_env 2) cartpole fresh
      = (Ret kw, w') /\
    Kwargs.epochs kw = 100 /\
    Kwargs.max_timestep kw = None /\
    Kwargs.batch_size kw = 4.
Proof.
  split; [reflexivity|].
  destruct (hyperparameters_pass_through cartpole (cartpole_env 4)
              (cartpole_env 2) fresh eq_refl)
    as (kw & w' & E & H1 & _ & _ & _ & _ & H6 & _ & _ & H9 & _).
  exists kw, w'. repeat split; assumption.
Defined.

(** X4. A run on an "env problem" (no [env_name]) makes exactly two
    environments, the training one first: both are built from the problem
    name with the same resize and rendering settings, and they differ in the
    batch size only, [batch_size] for training and [eval_batch_size] for
    evaluation.  The trainer receives them as [env] and [eval_env], and the
    training batch size as its [batch_size]. *)
Theorem main_environments
    (training_loop : Kwargs.t -> World -> Outcome unit)
    (o : FLAGS.t) (w : World) :
  valid o = true ->
  truthy (FLAGS.env_name o) = false ->
  exists kw wc,
    fst (main training_loop o w) = training_loop kw wc /\
    Kwargs.env kw = problem_env o (FLAGS.batch_size o) /\
    Kwargs.eval_env kw = problem_env o (FLAGS.eval_batch_size o) /\
    Kwargs.batch_size kw = FLAGS.batch_size o /\
    constructed (snd (main training_loop o w)) =
      problem_env o (FLAGS.eval_batch_size o)
        :: problem_env o (FLAGS.batch_size o) :: constructed w.
Proof.
  intros V N.
  assert (P : truthy (FLAGS.env_problem_name o) = true).
  { unfold valid in V. rewrite N in V.
    destruct (FLAGS.env_problem_name o); [exact V | discriminate]. }
  destruct (valid_problem_name o V) as [name PN].
  destruct (main_valid_run training_loop o w V)
    as (env & eval_env & kw & w_in & wc & [w1 M1] & [w2 M2] & K & KE & KV
        & F & _ & _ & C & _).
  destruct (make_env_problem_run o (FLAGS.batch_size o) w1 N P) as [E1 _].
  destruct (make_env_problem_run o (FLAGS.eval_batch_size o) w2 N P)
    as [E2 _].
  assert (X1 : env = problem_env o (FLAGS.batch_size o)) by congruence.
  assert (X2 : eval_env = problem_env o (FLAGS.eval_batch_size o))
    by congruence.
  destruct (training_loop_kwargs_scalars o env eval_env w_in name PN)
    as (kw' & K' & _ & _ & _ & _ & _ & B & _).
  assert (kw' = kw) by congruence. subst kw'.
  exists kw, wc. repeat split; congruence.
Qed.

Lemma main_environments_witness :
  exists kw wc,
    fst (main trainer_returns cartpole fresh) = trainer_returns kw wc /\
    Kwargs.env kw = cartpole_env 4 /\
    Kwargs.eval_env kw = cartpole_env 2 /\
    constructed (snd (main trainer_returns cartpole fresh))
      = [cartpole_env 2; cartpole_env 4].
Proof.
  destruct (main_environments trainer_returns cartpole fresh
              eq_refl eq_refl) as (kw & wc & F & E1 & E2 & _ & C).
  exists kw, wc. repeat split; assumption.
Defined.

(** ** When the trainer is called *)

(** X5. Started in a fresh process, [main] calls the trainer only for a
    valid option set: the problem name is a string, and [env_name] or the
    problem name is non-empty.  A call of the trainer is the only one of the
    run and its last action, and what the trainer returns or raises is what
    [main] returns or raises. *)
Theorem trainer_call_is_last
    (training_loop : Kwargs.t -> World -> Outcome unit) (o : FLAGS.t)
    (kw : Kwargs.t) (j : bool) :
  let final := snd (main training_loop o fresh) in
  In (EvTrain kw j) (trace final) ->
  valid o = true /\
  exists wc,
    trace final = EvTrain kw j :: trace wc /\
    (forall kw' j', ~ In (EvTrain kw' j') (trace wc)) /\
    fst (main training_loop o fresh) = training_loop kw wc.
Proof.
  intros final H. subst final.
  assert (V : valid o = true)
    by exact (main_trains_only_if_valid training_loop o kw j H).
  split; [exact V|].
  destruct (main_valid_run training_loop o fresh V)
    as (env & eval_env & kw0 & w_in & wc & _ & _ & _ & _ & _ & F & _ & T & _
        & TR & _).
  assert (NT : forall kw' j', ~ In (EvTrain kw' j') (trace wc))
    by (intros kw' j' I; exact (TR kw' j' I)).
  rewrite T in H. destruct H as [H|H]; [|destruct (NT kw j H)].
  inversion H; subst.
  exists wc. split; [exact T|]. split; [exact NT | exact F].
Qed.

Lemma trainer_call_is_last_witness :
  exists kw j,
    In (EvTrain kw j) (trace (snd (main trainer_raises cartpole fresh))) /\
    fst (main trainer_raises cartpole fresh)
      = Raise (ExternalError "training_loop").
Proof.
  assert (H : exists kw j,
             In (EvTrain kw j)
               (trace (snd (main trainer_raises cartpole fresh))))
    by (do 2 eexists; vm_compute; left; reflexivity).
  destruct H as (kw & j & H).
  destruct (trainer_call_is_last trainer_raises cartpole kw j H)
    as (_ & wc & _ & _ & F).
  exists kw, j. split; [exact H | exact F].
Defined.

(** X6. When no environment is named ([env_name] and the problem name each
    unset or empty), [main] raises before anything is constructed and
    without calling the trainer: a [TypeError] when the problem name is
    unset, the [AssertionError] of [make_env] when it is empty. *)
Theorem main_aborts_without_environment
    (training_loop : Kwargs.t -> World -> Outcome unit)
    (o : FLAGS.t) (w : World) :
  truthy (FLAGS.env_name o) = false ->
  truthy (FLAGS.env_problem_name o) = false ->
  let final := snd (main training_loop o w) in
  (FLAGS.env_problem_name o = None ->
   fst (main training_loop o w) = Raise TypeError) /\
  (FLAGS.env_problem_name o = Some "" ->
   fst (main training_loop o w) = Raise AssertionError) /\
  constructed final = constructed w /\
  (forall kw j, In (EvTrain kw j) (trace final) ->
                In (EvTrain kw j) (trace w)).
Proof.
  intros N P final. subst final.
  destruct (main_missing_identifier training_loop o w N P) as (F & C & T).
  split; [|split; [|split; assumption]].
  - intros E. rewrite F, E. reflexivity.
  - intros E. rewrite F, E. reflexivity.
Qed.

Lemma main_aborts_without_environment_witness :
  fst (main trainer_returns (with_names (Some "") (Some "") FLAGS.defaults)
         fresh) = Raise AssertionError /\
  constructed
    (snd (main trainer_returns
            (with_names (Some "") (Some "") FLAGS.defaults) fresh)) = [].
Proof.
  destruct (main_aborts_without_environment trainer_returns
              (with_names (Some "") (Some "") FLAGS.defaults) fresh
              eq_refl eq_refl) as (_ & A & C & _).
  split; [exact (A eq_refl) | exact C].
Defined.

(** X7. [main] needs the problem name even when [env_name] is given: with
    the problem name unset it raises a [TypeError] at its "Pong" test,
    having read three flags and constructed nothing.  The configuration
    updates for [jax_debug_nans] and [use_tpu] have been made by then. *)
Theorem main_needs_problem_name
    (training_loop : Kwargs.t -> World -> Outcome unit)
    (o : FLAGS.t) (w : World) :
  FLAGS.env_problem_name o = None ->
  let final := snd (main training_loop o w) in
  fst (main training_loop o w) = Raise TypeError /\
  trace final =
    EvFlag "env_problem_name" :: EvFlag "use_tpu" :: EvFlag "jax_debug_nans"
      :: trace w /\
  constructed final = constructed w /\
  cfg_debug_nans final = (FLAGS.jax_debug_nans o || cfg_debug_nans w)%bool /\
  cfg_platform_name final =
    (if FLAGS.use_tpu o then Some "tpu" else cfg_platform_name w).
Proof.
  intros E final. subst final.
  destruct (main_no_problem_name training_loop o w E) as (F & C & T).
  destruct (main_config training_loop o w) as (N & P).
  repeat split; assumption.
Qed.

Lemma main_needs_problem_name_witness :
  fst (main trainer_returns
         (with_names (Some "CartPole-v0") None FLAGS.defaults) fresh)
  = Raise TypeError.
Proof.
  exact (proj1 (main_needs_problem_name trainer_returns
                  (with_names (Some "CartPole-v0") None FLAGS.defaults)
                  fresh eq_refl)).
Defined.

(** ** The ROM copy *)

#[global] Instance same_roms_frame : Frame same_roms.
Proof.
  split; unfold same_roms.
  - intros w. split; [reflexivity | trivial].
  - intros w1 w2 w3 [A1 A2] [B1 B2]. split; [congruence | auto].
  - intros name w. split; [reflexivity|].
    cbn. intros [H|H]; [discriminate | exact H].
Qed.

Lemma with_disable_jit_same_roms {A} (o : FLAGS.t) (body : M A) :
  maintains same_roms o body ->
  maintains same_roms o (with_disable_jit body).
Proof.
  intros HB w. unfold with_disable_jit.
  specialize (HB (set_jit_is_disabled true w)).
  destruct (body o (set_jit_is_disabled true w)) as [r w']. exact HB.
Qed.

Lemma make_envs_then_training_same_roms training_loop (o : FLAGS.t) :
  maintains same_roms o (make_envs_then (guarded_training training_loop)).
Proof.
  unfold make_envs_then, guarded_training.
  frame_main ltac:(intros; split;
                   [reflexivity
                   | cbn; intros [H|H]; [discriminate | exact H]]).
  all: apply with_disable_jit_same_roms.
  all: frame_main ltac:(intros; split;
                        [reflexivity
                        | cbn; intros [H|H]; [discriminate | exact H]]).
Qed.

(** X8. The ROM branch of [main] belongs to a Pong run on the cluster
    (the problem name contains "Pong" and [xm] is set).  In every other run
    [main] leaves the ROM path flag as it was and makes no ROM copy. *)
Theorem no_rom_copy_outside_pong_on_cluster
    (training_loop : Kwargs.t -> World -> Outcome unit)
    (o : FLAGS.t) (w : World) :
  (forall name, FLAGS.env_problem_name o = Some name ->
                substring_of "Pong" name -> FLAGS.xm o = true -> False) ->
  let final := snd (main training_loop o w) in
  atari_roms_path final = atari_roms_path w /\
  (In EvCopyRoms (trace final) -> In EvCopyRoms (trace w)).
Proof.
  intros NS final. subst final.
  destruct (FLAGS.env_problem_name o) as [name|] eqn:P.
  - rewrite (main_stages training_loop o w name P).
    destruct (make_envs_then_training_same_roms training_loop o
                (after_setup o name w)) as [R C].
    rewrite R.
    assert (A : atari_roms_path (after_setup o name w) = atari_roms_path w /\
                (In EvCopyRoms (trace (after_setup o name w)) ->
                 In EvCopyRoms (trace w))).
    { unfold after_setup.
      destruct (str_contains "Pong" name) eqn:S.
      - destruct (FLAGS.xm o) eqn:X.
        + exfalso. apply (NS name eq_refl); [|reflexivity].
          apply str_contains_iff. exact S.
        + destruct (FLAGS.jax_debug_nans o), (FLAGS.use_tpu o);
            (split; [reflexivity|]); cbn; intros H;
            repeat (destruct H as [H|H]; [discriminate|]); exact H.
      - destruct (FLAGS.jax_debug_nans o), (FLAGS.use_tpu o);
          (split; [reflexivity|]); cbn; intros H;
          repeat (destruct H as [H|H]; [discriminate|]); exact H. }
    destruct A as [A1 A2]. split; [exact A1|]. intros H. auto.
  - destruct (main_no_problem_name training_loop o w P) as (_ & _ & T).
    split.
    + unfold main. cbv [bind flag when modify ret py_in copy_roms].
      rewrite P.
      destruct (FLAGS.jax_debug_nans o), (FLAGS.use_tpu o); reflexivity.
    + rewrite T. intros H.
      repeat (destruct H as [H|H]; [discriminate|]). exact H.
Qed.

Lemma no_rom_copy_outside_pong_on_cluster_witness :
  atari_roms_path (snd (main trainer_returns cartpole fresh)) = None /\
  ~ In EvCopyRoms (trace (snd (main trainer_returns cartpole fresh))).
Proof.
  assert (NS : forall name,
             FLAGS.env_problem_name cartpole = Some name ->
             substring_of "Pong" name -> FLAGS.xm cartpole = true -> False)
    by (intros name _ _ X; discriminate X).
  destruct (no_rom_copy_outside_pong_on_cluster trainer_returns cartpole
              fresh NS) as [A B].
  split; [exact A | exact B].
Defined.

(** ** The body of the networks *)

(** X9. In separate mode [common_layers] is called once for each network,
    and the policy network and the value network are built on equal body
    stacks: the stack [common_layers] returns for the problem name. *)
Theorem separate_networks_share_body
    (o : FLAGS.t) (env eval_env : EnvHandle) (w : World) :
  valid o = true ->
  FLAGS.combined_network o = false ->
  exists kw w' layers,
    training_loop_kwargs env eval_env o w = (Ret kw, w') /\
    fst (common_layers o w) = Ret layers /\
    Kwargs.policy_net_fun kw = Some (policy_net layers) /\
    Kwargs.value_net_fun kw = Some (value_net layers).
Proof.
  intros V C. destruct (valid_problem_name o V) as [name P].
  destruct (training_loop_kwargs_run o env eval_env w name P)
    as (kw & E & _ & _ & _ & _ & _ & _ & HS).
  destruct (HS C) as (PN & VN & _).
  exists kw. eexists. exists (body_for o name).
  split; [exact E|]. split; [|split; assumption].
  rewrite (common_layers_run o w name P). unfold body_for.
  destruct (str_contains "Pong" name); reflexivity.
Qed.

Lemma separate_networks_share_body_witness :
  exists kw w',
    training_loop_kwargs (cartpole_env 4) (cartpole_env 2) cartpole fresh
      = (Ret kw, w') /\
    Kwargs.policy_net_fun kw
      = Some (policy_net [Dense 64; Tanh; Dense 64; Tanh]) /\
    Kwargs.value_net_fun kw
      = Some (value_net [Dense 64; Tanh; Dense 64; Tanh]).
Proof.
  destruct (separate_networks_share_body cartpole (cartpole_env 4)
              (cartpole_env 2) fresh eq_refl eq_refl)
    as (kw & w' & layers & E & L & PN & VN).
  exists kw, w'. split; [exact E|].
  assert (X : layers = [Dense 64; Tanh; Dense 64; Tanh]).
  { rewrite (common_layers_run cartpole fresh "CartPole-v1" eq_refl) in L.
    cbn in L. inversion L. reflexivity. }
  rewrite <- X. split; assumption.
Defined.

(** X10. In combined mode [common_layers] is handed over uncalled, together
    with the [two_towers] flag: [run_training_loop] builds the trainer's
    arguments without reading the problem name or [flatten_dims], whatever
    those flags hold. *)
Theorem combined_network_defers_body
    (o : FLAGS.t) (env eval_env : EnvHandle) (w : World) :
  FLAGS.combined_network o = true ->
  exists kw names,
    training_loop_kwargs env eval_env o w =
      (Ret kw, extend (map EvFlag names) w) /\
    Kwargs.policy_and_value_net_fun kw =
      Some (policy_and_value_net common_layers_fn (FLAGS.two_towers o)) /\
    ~ In "env_problem_name" names /\
    ~ In "flatten_dims" names.
Proof.
  intros C.
  exists
    {| Kwargs.env := env;
       Kwargs.epochs := FLAGS.epochs o;
       Kwargs.policy_net_fun := None;
       Kwargs.value_net_fun := None;
       Kwargs.policy_and_value_net_fun :=
         Some (policy_and_value_net common_layers_fn (FLAGS.two_towers o));
       Kwargs.policy_optimizer_fun := None;
       Kwargs.value_optimizer_fun := None;
       Kwargs.policy_and_value_optimizer_fun :=
         Some (optimizer_fun (FLAGS.learning_rate o));
       Kwargs.num_optimizer_steps := FLAGS.num_optimizer_steps o;
       Kwargs.policy_only_num_optimizer_steps :=
         FLAGS.policy_only_num_optimizer_steps o;
       Kwargs.value_only_num_optimizer_steps :=
         FLAGS.value_only_num_optimizer_steps o;
       Kwargs.print_every_optimizer_steps :=
         FLAGS.print_every_optimizer_steps o;
       Kwargs.batch_size := FLAGS.batch_size o;
       Kwargs.target_kl := FLAGS.target_kl o;
       Kwargs.boundary := FLAGS.boundary o;
       Kwargs.max_timestep := FLAGS.truncation_timestep o;
       Kwargs.random_seed :=
         match FLAGS.random_seed o with
         | Some s => int_of_str s
         | None => None
         end;
       Kwargs.c1 := FLAGS.value_coef o;
       Kwargs.c2 := FLAGS.entropy_coef o;
       Kwargs.gamma := FLAGS.gamma o;
       Kwargs.lambda_ := FLAGS.lambda_ o;
       Kwargs.epsilon := FLAGS.epsilon o;
       Kwargs.enable_early_stopping := FLAGS.enable_early_stopping o;
       Kwargs.output_dir := FLAGS.output_dir o;
       Kwargs.eval_every_n := FLAGS.eval_every_n o;
       Kwargs.eval_env := eval_env |}.
  exists ["combined_network"; "two_towers"; "learning_rate"; "random_seed";
          "epochs"; "num_optimizer_steps"; "policy_only_num_optimizer_steps";
          "value_only_num_optimizer_steps"; "print_every_optimizer_steps";
          "batch_size"; "target_kl"; "boundary"; "truncation_timestep";
          "value_coef"; "entropy_coef"; "gamma"; "lambda_"; "epsilon";
          "enable_early_stopping"; "output_dir"; "eval_every_n"].
  split; [|split; [reflexivity|split; apply not_In_existsb; reflexivity]].
  unfold training_loop_kwargs, get_optimizer_fun. run. rewrite C. run.
  destruct (FLAGS.random_seed o) as [s|]; run;
    [destruct (int_of_str s); run|]; reflexivity.
Qed.

Lemma combined_network_defers_body_witness :
  exists kw w',
    training_loop_kwargs (cartpole_env 4) (cartpole_env 2)
      (with_combined_network true cartpole) fresh
      = (Ret kw, w') /\
    Kwargs.policy_and_value_net_fun kw
      = Some (policy_and_value_net common_layers_fn true).
Proof.
  destruct (combined_network_defers_body
              (with_combined_network true cartpole)
              (cartpole_env 4) (cartpole_env 2) fresh eq_refl)
    as (kw & names & E & N & _).
  exists kw. eexists. split; [exact E | exact N].
Defined.
